(** * The ReactionsFeed and NotificationsFeed screens of the nostros client

    Shallow embedding of
      - src/frontend/Pages/ReactionsFeed/index.tsx
      - src/frontend/Pages/NotificationsFeed/index.tsx

    Both files are React function components.  What they compute is a
    sequence of effects: calls of the state setters returned by [useState]
    and calls on the shared relay pool.  A handler is embedded as a function
    from the values its closure captured at render time to the ordered trace
    of effects it performs; a small writer/error monad threads the trace and
    stops at a rejected promise.  Rendering itself (JSX, styles) is left out. *)

From Stdlib Require Import ZArith List String Bool Lia.
Import ListNotations.
Local Open Scope string_scope.
Local Open Scope list_scope.
Local Open Scope Z_scope.

Set Implicit Arguments.

(** ** JavaScript values used by the components *)

(** A value of type [string | undefined]; [None] is [undefined]. *)
Definition JsString : Type := option string.

(** Truthiness of a [string | undefined]: the empty string is falsy. *)
Definition truthy (s : JsString) : bool :=
  match s with
  | Some s => negb (String.eqb s "")
  | None => false
  end.

(** Truthiness of an object reference: any defined object is truthy. *)
Definition defined {A : Type} (x : option A) : bool :=
  match x with
  | Some _ => true
  | None => false
  end.

(** The nullish coalescing operator [x ?? d]. *)
Definition nullish {A : Type} (x : option A) (d : A) : A :=
  match x with
  | Some a => a
  | None => d
  end.

Notation "x ?? d" := (nullish x d) (at level 45, left associativity).

(** The settlement of a promise the component waits for. *)
Inductive Outcome (A : Type) : Type :=
| Resolved (a : A)
| Rejected.

Arguments Rejected {A}.

(** The fields of [Note] the two components read.  The type is declared in
    Functions/DatabaseFunctions/Notes; the components guard [id], [pubkey]
    and [repost_id] against [undefined], so all are optional here. *)
Module Note.
Record t : Type := mk {
  id : JsString;
  pubkey : JsString;
  repost_id : JsString;
  created_at : option Z;
}.
End Note.

(** The field of [Reaction] read through [lastReaction?.created_at]. *)
Module Reaction.
Record t : Type := mk { created_at : option Z }.
End Reaction.

(** The component state held by [useState]: the materialised items, the
    page size and the refresh indicator. *)
Module State.
Record t : Type := mk {
  notes : list Note.t;
  pageSize : Z;
  refreshing : bool;
}.
End State.

(** Opaque handles for the objects handed down by the contexts.  A relay
    pool carries its identity: React compares the dependencies of an effect
    with [Object.is], so a pool replaced by another one is a change. *)
Inductive Database : Type := QuickSQLiteConnection.
Inductive RelayPool : Type := RelayPoolObject (identity : nat).

(** The pool of the examples. *)
Definition RelayPoolRef : RelayPool := RelayPoolObject 0.

(** [Object.is] on two values of [relayPool]. *)
Definition samePool (a b : option RelayPool) : bool :=
  match a, b with
  | Some (RelayPoolObject m), Some (RelayPoolObject n) => Nat.eqb m n
  | None, None => true
  | _, _ => false
  end.

(** ** Effects *)

Section Effects.
(** The type of the filter records differs between the two components. *)
Variable Filter : Type.

(** A call on the shared relay pool. *)
Inductive PoolCall : Type :=
| Subscribe (subId : string) (filters : list Filter)
| Unsubscribe (subIds : list string)
| UnsubscribeAll.

(** One effect of a handler: a state setter or a pool call. *)
Inductive Action : Type :=
| SetNotes (notes : list Note.t)
| SetPageSize (n : Z)
| SetRefreshing (b : bool)
| Pool (c : PoolCall).

(** A computation that has performed a trace of effects and either
    returned a value or stopped at a rejected promise. *)
Definition Eff (A : Type) : Type := (list Action * option A)%type.

Definition ret {A : Type} (a : A) : Eff A := ([], Some a).

Definition bind {A B : Type} (m : Eff A) (f : A -> Eff B) : Eff B :=
  match m with
  | (t, Some a) => let (t', r) := f a in (t ++ t', r)
  | (t, None) => (t, None)
  end.

Definition emit (a : Action) : Eff unit := ([a], Some tt).

(** [await p]: resume with the value, or stop when [p] rejects. *)
Definition await {A : Type} (p : Outcome A) : Eff A :=
  match p with
  | Resolved a => ret a
  | Rejected => ([], None)
  end.

(** [when c m]: an [if] without [else]. *)
Definition when (c : bool) (m : Eff unit) : Eff unit :=
  if c then m else ret tt.

(** [relayPool?.f(...)]: the call is skipped when the pool is undefined. *)
Definition optcall (relayPool : option RelayPool) (c : PoolCall) : Eff unit :=
  when (defined relayPool) (emit (Pool c)).

Definition trace {A : Type} (m : Eff A) : list Action := fst m.

(** *** Reading a trace *)

(** The pool calls of a trace, in order. *)
Fixpoint poolCalls (t : list Action) : list PoolCall :=
  match t with
  | [] => []
  | Pool c :: t => c :: poolCalls t
  | _ :: t => poolCalls t
  end.

(** The channel names under which a trace issues subscriptions, in order. *)
Fixpoint subscribed (t : list Action) : list string :=
  match t with
  | [] => []
  | Pool (Subscribe n _) :: t => n :: subscribed t
  | _ :: t => subscribed t
  end.

(** The filters a trace sends under channel [name], one entry per issue. *)
Fixpoint issued (name : string) (t : list Action) : list (list Filter) :=
  match t with
  | [] => []
  | Pool (Subscribe n fs) :: t =>
      if String.eqb n name then fs :: issued name t else issued name t
  | _ :: t => issued name t
  end.

(** The values a trace passes to [setNotes], [setPageSize] and
    [setRefreshing]. *)
Fixpoint notesWrites (t : list Action) : list (list Note.t) :=
  match t with
  | [] => []
  | SetNotes ns :: t => ns :: notesWrites t
  | _ :: t => notesWrites t
  end.

Fixpoint pageSizeWrites (t : list Action) : list Z :=
  match t with
  | [] => []
  | SetPageSize n :: t => n :: pageSizeWrites t
  | _ :: t => pageSizeWrites t
  end.

Fixpoint refreshingWrites (t : list Action) : list bool :=
  match t with
  | [] => []
  | SetRefreshing b :: t => b :: refreshingWrites t
  | _ :: t => refreshingWrites t
  end.

(** A trace that changes nothing: no setter is called, no subscription is
    issued.  (Retiring, which issues nothing, is not excluded.) *)
Definition inert (t : list Action) : Prop :=
  subscribed t = [] /\ forall a, In a t -> exists c, a = Pool c.

(** The channel names a pool call addresses; [None] when the call is not
    addressed by name at all. *)
Definition addressed (c : PoolCall) : option (list string) :=
  match c with
  | Subscribe n _ => Some [n]
  | Unsubscribe ns => Some ns
  | UnsubscribeAll => None
  end.

(** Every name addressed by the call satisfies [ns]. *)
Definition addressedWithin (ns : string -> bool) (c : PoolCall) : bool :=
  match addressed c with
  | Some names => forallb ns names
  | None => false
  end.

(** [retiresFirst name live cs]: along the pool calls [cs], every issue under
    [name] finds the name retired: it was not live at the start ([live]) or
    was retired, by name or with everything, since it was last issued. *)
Fixpoint retiresFirst (name : string) (live : bool) (cs : list PoolCall) : bool :=
  match cs with
  | [] => true
  | Subscribe n _ :: cs =>
      if String.eqb n name
      then negb live && retiresFirst name true cs
      else retiresFirst name live cs
  | Unsubscribe ns :: cs =>
      retiresFirst name (live && negb (existsb (String.eqb name) ns)) cs
  | UnsubscribeAll :: cs => retiresFirst name false cs
  end.

(** *** Committing the setter calls of a trace *)

Definition setState (s : State.t) (a : Action) : State.t :=
  match a with
  | SetNotes ns =>
      {| State.notes := ns; State.pageSize := State.pageSize s;
         State.refreshing := State.refreshing s |}
  | SetPageSize n =>
      {| State.notes := State.notes s; State.pageSize := n;
         State.refreshing := State.refreshing s |}
  | SetRefreshing b =>
      {| State.notes := State.notes s; State.pageSize := State.pageSize s;
         State.refreshing := b |}
  | Pool _ => s
  end.

(** The state after the setter calls of a trace, applied in order. *)
Definition commit (s : State.t) (t : list Action) : State.t :=
  fold_left setState t s.

End Effects.

Arguments Unsubscribe {Filter}.
Arguments UnsubscribeAll {Filter}.
Arguments SetNotes {Filter}.
Arguments SetPageSize {Filter}.
Arguments SetRefreshing {Filter}.
Arguments ret {Filter A}.
Arguments bind {Filter A B}.
Arguments await {Filter A}.

Notation "x <- m ;; k" := (bind m (fun x => k))
  (at level 61, m at next level, right associativity).
Notation "m ;; k" := (bind m (fun _ => k))
  (at level 61, right associativity).

(** A trace that issues no subscription and writes neither the items nor
    the refresh indicator.  (It may retire, and it may set the page size.) *)
Definition quiet (Filter : Type) (t : list (Action Filter)) : Prop :=
  subscribed t = [] /\ notesWrites t = [] /\ refreshingWrites t = [].

(** ** The relay pool as the controller sees it *)

Section RelayPoolModel.
Variable Filter : Type.

(** The live subscriptions of the pool, newest first: channel name and
    filters. *)
Definition Live : Type := list (string * list Filter).

Definition named (names : list string) (s : string * list Filter) : bool :=
  existsb (String.eqb (fst s)) names.

(** Retiring names that are not live changes nothing. *)
Definition retire (names : list string) (p : Live) : Live :=
  filter (fun s => negb (named names s)) p.

(** Modelled from the spec: lib/nostr/RelayPool, whose [subscribe],
    [unsubscribe] and [unsubscribeAll] the components call, is not among the
    sources.  The spec's data model says that a channel name identifies at
    most one live subscription, that issuing a new one under the same name
    implicitly retires the prior one, and that retiring a name that is not
    live is not an error.  [unsubscribeAll] is not described there; it is
    taken at its name and retires every live subscription. *)
Definition poolStep (p : Live) (c : PoolCall Filter) : Live :=
  match c with
  | Subscribe n fs => (n, fs) :: retire [n] p
  | Unsubscribe ns => retire ns p
  | UnsubscribeAll => []
  end.

(** The pool after the pool calls of a trace. *)
Definition poolRun (p : Live) (t : list (Action Filter)) : Live :=
  fold_left poolStep (poolCalls t) p.

(** The subscriptions live under one channel name. *)
Definition liveUnder (name : string) (p : Live) : list (list Filter) :=
  map snd (filter (fun s => String.eqb (fst s) name) p).

(** No channel name carries two live subscriptions. *)
Definition exclusive (p : Live) : Prop := NoDup (map fst p).

End RelayPoolModel.

(** ** ReactionsFeed *)

Module ReactionsFeed.

(** The members of [Kind] (nostr-tools) the component names. *)
Inductive Kind : Type := Metadata | Text | Reaction.

(** [RelayFilters], with the fields this component fills in. *)
Record RelayFilters : Type := {
  kinds : list Kind;
  authors : option (list string);
  ids : option (list string);
  tag_e : option (list string);   (* '#e' *)
  since : option Z;
  limit : option Z;
}.

Definition Act : Type := Action RelayFilters.
Definition M : Type -> Type := Eff RelayFilters.

Definition initialPageSize : Z := 10.

(** What the functions of one render close over: the context values and
    the [pageSize] of that render. *)
Record Closure : Type := {
  database : option Database;
  publicKey : JsString;
  relayPool : option RelayPool;
  pageSize : Z;
}.

Section Handlers.
Variable cl : Closure.

Definition unsubscribe : M unit :=
  optcall (relayPool cl)
    (Unsubscribe
       [ "homepage-contacts-main";
         "homepage-contacts-meta";
         "homepage-contacts-replies";
         "homepage-contacts-reactions";
         "homepage-contacts-repost" ]).

(** The argument [past] is never read. *)
Definition subscribeNotes : M unit :=
  if negb (defined (database cl)) || negb (truthy (publicKey cl)) then ret tt
  else
    let message :=
      {| kinds := [Reaction];
         authors := Some [publicKey cl ?? ""];
         ids := None; tag_e := None; since := None;
         limit := Some (pageSize cl) |} in
    optcall (relayPool cl) (Subscribe "homepage-contacts-main" [message]) ;;
    emit (SetRefreshing false).

(** The callback given to [getReactedNotes(...).then]. *)
Definition loadNotes_then (notes : list Note.t)
    (lastReaction : Outcome (option Reaction.t))
    (lastReply : Outcome (option Note.t)) : M unit :=
  emit (SetNotes notes) ;;
  when (0 <? Z.of_nat (List.length notes))
    (let noteIds := map (fun note => Note.id note ?? "") notes in
     optcall (relayPool cl)
       (Subscribe "homepage-contacts-meta"
          [ {| kinds := [Metadata];
               authors := Some (map (fun note => Note.pubkey note ?? "") notes);
               ids := None; tag_e := None; since := None; limit := None |} ]) ;;
     lastReaction <- await lastReaction ;;
     optcall (relayPool cl)
       (Subscribe "homepage-contacts-reactions"
          [ {| kinds := [Reaction];
               authors := None; ids := None;
               tag_e := Some noteIds;
               since := Some (match lastReaction with
                              | Some r => Reaction.created_at r ?? 0
                              | None => 0
                              end);
               limit := None |} ]) ;;
     lastReply <- await lastReply ;;
     optcall (relayPool cl)
       (Subscribe "homepage-contacts-replies"
          [ {| kinds := [Text];
               authors := None; ids := None;
               tag_e := Some noteIds;
               since := Some (match lastReply with
                              | Some r => Note.created_at r ?? 0
                              | None => 0
                              end);
               limit := None |} ]) ;;
     let repostIds :=
       map (fun note => Note.repost_id note ?? "")
           (filter (fun note => truthy (Note.repost_id note)) notes) in
     when (0 <? Z.of_nat (List.length repostIds))
       (optcall (relayPool cl)
          (Subscribe "homepage-contacts-repost"
             [ {| kinds := [Text];
                  authors := None;
                  ids := Some repostIds;
                  tag_e := None; since := None; limit := None |} ]))).

(** [loadNotes], given how the three Store queries settle.  The Store
    functions ([getReactedNotes], [getLastReaction], [getLastReply]) are
    outside the component; their settlements are inputs. *)
Definition loadNotes (reacted : Outcome (list Note.t))
    (lastReaction : Outcome (option Reaction.t))
    (lastReply : Outcome (option Note.t)) : M unit :=
  when (defined (database cl) && truthy (publicKey cl))
    (notes <- await reacted ;;
     loadNotes_then notes lastReaction lastReply).

(** [onRefresh], as a function of the closure it captured. *)
Definition onRefresh : M unit :=
  emit (SetRefreshing true) ;;
  unsubscribe ;;
  subscribeNotes.

(** [onScroll]; [nearEnd] is the answer of [handleInfinityScroll]. *)
Definition onScroll (nearEnd : bool) : M unit :=
  when nearEnd (emit (SetPageSize (pageSize cl + initialPageSize))).

(** The effect with no dependencies: runs once, after the first render. *)
Definition mountEffect (reacted : Outcome (list Note.t))
    (lastReaction : Outcome (option Reaction.t))
    (lastReply : Outcome (option Note.t)) : M unit :=
  unsubscribe ;;
  subscribeNotes ;;
  loadNotes reacted lastReaction lastReply.

(** The effect on [lastEventId, lastConfirmationtId]. *)
Definition eventEffect (reacted : Outcome (list Note.t))
    (lastReaction : Outcome (option Reaction.t))
    (lastReply : Outcome (option Note.t)) : M unit :=
  when (defined (relayPool cl) && truthy (publicKey cl))
    (loadNotes reacted lastReaction lastReply).

(** The effect on [pageSize]. *)
Definition pageSizeEffect : M unit :=
  when (initialPageSize <? pageSize cl) subscribeNotes.

End Handlers.

(** A closed form of the channel names under which [loadNotes] subscribes
    for a non-empty result: metadata first, then one name per Store query
    that resolves, and the repost channel last when some note has a truthy
    [repost_id]; nothing when a guard fails.  [LoadFacts.loadNotes_subscribed]
    proves that this is what [loadNotes] does. *)
Definition enrichment (cl : Closure) (notes : list Note.t)
    (lastReaction : Outcome (option Reaction.t))
    (lastReply : Outcome (option Note.t)) : list string :=
  if defined (database cl) && truthy (publicKey cl) && defined (relayPool cl)
  then
    "homepage-contacts-meta" ::
    match lastReaction with
    | Rejected => []
    | Resolved _ =>
        "homepage-contacts-reactions" ::
        match lastReply with
        | Rejected => []
        | Resolved _ =>
            "homepage-contacts-replies" ::
            if existsb (fun note => truthy (Note.repost_id note)) notes
            then ["homepage-contacts-repost"] else []
        end
    end
  else [].

(** *** The mounted component

    [useCallback(..., [])] keeps the [onRefresh] of the first render for
    the whole life of the component, with everything that function closes
    over: the first render's [unsubscribe] and [subscribeNotes], hence the
    first render's [database], [publicKey], [relayPool] and [pageSize].
    The effects and [onScroll] are those of the latest render. *)

Record Instance : Type := {
  first : Closure;            (* what the first render closed over *)
  ctxDatabase : option Database;
  ctxPublicKey : JsString;
  ctxRelayPool : option RelayPool;
  state : State.t;
}.

(** The closure of the render of the current context and state. *)
Definition render (i : Instance) : Closure :=
  {| database := ctxDatabase i;
     publicKey := ctxPublicKey i;
     relayPool := ctxRelayPool i;
     pageSize := State.pageSize (state i) |}.

Definition withState (i : Instance) (s : State.t) : Instance :=
  {| first := first i;
     ctxDatabase := ctxDatabase i;
     ctxPublicKey := ctxPublicKey i;
     ctxRelayPool := ctxRelayPool i;
     state := s |}.

(** The first render: the [useState] initial values. *)
Definition mount (db : option Database) (pk : JsString)
    (pool : option RelayPool) : Instance :=
  {| first := {| database := db; publicKey := pk; relayPool := pool;
                 pageSize := initialPageSize |};
     ctxDatabase := db; ctxPublicKey := pk; ctxRelayPool := pool;
     state := {| State.notes := []; State.pageSize := initialPageSize;
                 State.refreshing := false |} |}.

(** How the three Store queries of one [loadNotes] settle. *)
Record Store : Type := {
  reacted : Outcome (list Note.t);
  lastReaction : Outcome (option Reaction.t);
  lastReply : Outcome (option Note.t);
}.

Inductive Event : Type :=
| Mounted (s1 s2 : Store)      (* the effects after the first render *)
| Scrolled (nearEnd : bool)    (* onScroll; the answer of handleInfinityScroll *)
| Refreshed                    (* the RefreshControl calls onRefresh *)
| EventArrived (s : Store)     (* lastEventId or lastConfirmationtId changed *)
| ContextChanged (db : option Database) (pk : JsString)
                 (pool : option RelayPool).

(** The effects performed in reaction to one event.  A state change is
    followed by a render, and the effect on [pageSize] runs in the closure
    of that render when the value changed.  Each [loadNotes] is taken as
    one unit at the point of its call. *)
Definition react (i : Instance) (e : Event) : list Act :=
  match e with
  | Mounted s1 s2 =>
      let cl := first i in
      trace (mountEffect cl (reacted s1) (lastReaction s1) (lastReply s1))
      ++ trace (eventEffect cl (reacted s2) (lastReaction s2) (lastReply s2))
      ++ trace (pageSizeEffect cl)
  | Scrolled nearEnd =>
      let t := trace (onScroll (render i) nearEnd) in
      let i' := withState i (commit (state i) t) in
      if Z.eqb (State.pageSize (state i')) (State.pageSize (state i))
      then t
      else t ++ trace (pageSizeEffect (render i'))
  | Refreshed => trace (onRefresh (first i))
  | EventArrived s =>
      trace (eventEffect (render i) (reacted s) (lastReaction s) (lastReply s))
  | ContextChanged _ _ _ => []
  end.

Definition step (i : Instance) (e : Event) : Instance :=
  let i' := withState i (commit (state i) (react i e)) in
  match e with
  | ContextChanged db pk pool =>
      {| first := first i';
         ctxDatabase := db; ctxPublicKey := pk; ctxRelayPool := pool;
         state := state i' |}
  | _ => i'
  end.

Definition run (i : Instance) (es : list Event) : Instance :=
  fold_left step es i.

(** The value of [pageSize] after each event of [es], in order. *)
Fixpoint pageSizes (i : Instance) (es : list Event) : list Z :=
  match es with
  | [] => []
  | e :: es => State.pageSize (state (step i e)) :: pageSizes (step i e) es
  end.

(** The five channel names of this component. *)
Definition ownName (n : string) : bool :=
  existsb (String.eqb n)
    [ "homepage-contacts-main";
      "homepage-contacts-meta";
      "homepage-contacts-replies";
      "homepage-contacts-reactions";
      "homepage-contacts-repost" ].

(** The name space the channel names are drawn from. *)
Definition namespaced (n : string) : bool :=
  String.prefix "homepage-contacts-" n.

End ReactionsFeed.

(** ** NotificationsFeed *)

Module NotificationsFeed.

(** The members of [EventKind] (lib/nostr/Events) the component names. *)
Inductive EventKind : Type := meta | textNote | reaction.

(** The filter objects this component builds.  [authors] is filled with
    [note.pubkey] as it is, so an entry may be [undefined]. *)
Record RelayFilters : Type := {
  kinds : list EventKind;
  authors : option (list JsString);
  tag_e : option (list string);   (* '#e' *)
  tag_p : option (list string);   (* '#p' *)
  limit : option Z;
}.

Definition Act : Type := Action RelayFilters.
Definition M : Type -> Type := Eff RelayFilters.

Definition initialPageSize : Z := 10.

Record Closure : Type := {
  database : option Database;
  publicKey : JsString;
  relayPool : option RelayPool;
  pageSize : Z;
}.

Section Handlers.
Variable cl : Closure.

Definition subscribeNotes : M unit :=
  if negb (defined (database cl)) || negb (truthy (publicKey cl)) then ret tt
  else
    optcall (relayPool cl)
      (Subscribe "mentions-user"
         [ {| kinds := [textNote];
              authors := None; tag_e := None;
              tag_p := Some [publicKey cl ?? ""];
              limit := Some (pageSize cl) |};
           {| kinds := [textNote];
              authors := None;
              tag_e := Some [publicKey cl ?? ""];
              tag_p := None;
              limit := Some (pageSize cl) |} ]).

Definition calculateInitialNotes : M unit :=
  when (defined (database cl) && truthy (publicKey cl)) subscribeNotes.

(** The callback given to [getMentionNotes(...).then]. *)
Definition loadNotes_then (notes : list Note.t) : M unit :=
  emit (SetNotes notes) ;;
  emit (SetRefreshing false) ;;
  let missingDataNotes := map (fun note => Note.pubkey note) notes in
  optcall (relayPool cl)
    (Subscribe "mentions-answers"
       [ {| kinds := [reaction];
            authors := None;
            tag_e := Some (map (fun note => Note.id note ?? "") notes);
            tag_p := None; limit := None |};
         {| kinds := [meta];
            authors := Some missingDataNotes;
            tag_e := None; tag_p := None; limit := None |} ]).

(** [loadNotes], given how [getMentionNotes] settles. *)
Definition loadNotes (mentions : Outcome (list Note.t)) : M unit :=
  when (defined (database cl) && truthy (publicKey cl))
    (notes <- await mentions ;;
     loadNotes_then notes).

(** The body shared by the effect on [publicKey, relayPool] and by
    [onRefresh]: [calculateInitialNotes().then(() => loadNotes())]. *)
Definition restart (mentions : Outcome (list Note.t)) : M unit :=
  optcall (relayPool cl) UnsubscribeAll ;;
  when (defined (relayPool cl) && truthy (publicKey cl))
    (calculateInitialNotes ;;
     loadNotes mentions).

(** The effect on [publicKey, relayPool]. *)
Definition contextEffect (mentions : Outcome (list Note.t)) : M unit :=
  restart mentions.

(** The effect on [lastEventId]. *)
Definition eventEffect (mentions : Outcome (list Note.t)) : M unit :=
  loadNotes mentions.

(** The effect on [pageSize]. *)
Definition pageSizeEffect (mentions : Outcome (list Note.t)) : M unit :=
  when (initialPageSize <? pageSize cl)
    (optcall (relayPool cl) UnsubscribeAll ;;
     subscribeNotes ;;
     loadNotes mentions).

Definition onRefresh (mentions : Outcome (list Note.t)) : M unit :=
  emit (SetRefreshing true) ;;
  restart mentions.

Definition onScroll (nearEnd : bool) : M unit :=
  when nearEnd (emit (SetPageSize (pageSize cl + initialPageSize))).

End Handlers.

(** *** The mounted component; [onRefresh] is memoised with no
    dependencies, as in ReactionsFeed, and so is the first render's. *)

Record Instance : Type := {
  first : Closure;
  ctxDatabase : option Database;
  ctxPublicKey : JsString;
  ctxRelayPool : option RelayPool;
  state : State.t;
}.

Definition render (i : Instance) : Closure :=
  {| database := ctxDatabase i;
     publicKey := ctxPublicKey i;
     relayPool := ctxRelayPool i;
     pageSize := State.pageSize (state i) |}.

Definition withState (i : Instance) (s : State.t) : Instance :=
  {| first := first i;
     ctxDatabase := ctxDatabase i;
     ctxPublicKey := ctxPublicKey i;
     ctxRelayPool := ctxRelayPool i;
     state := s |}.

Definition mount (db : option Database) (pk : JsString)
    (pool : option RelayPool) : Instance :=
  {| first := {| database := db; publicKey := pk; relayPool := pool;
                 pageSize := initialPageSize |};
     ctxDatabase := db; ctxPublicKey := pk; ctxRelayPool := pool;
     state := {| State.notes := []; State.pageSize := initialPageSize;
                 State.refreshing := true |} |}.

Inductive Event : Type :=
| Mounted (m1 m2 m3 : Outcome (list Note.t))
| Scrolled (nearEnd : bool) (m : Outcome (list Note.t))
| Refreshed (m : Outcome (list Note.t))
| EventArrived (m : Outcome (list Note.t))
| ContextChanged (db : option Database) (pk : JsString)
                 (pool : option RelayPool) (m : Outcome (list Note.t)).

(** Whether the dependencies [publicKey, relayPool] of an effect are the
    same as at the render before, by [Object.is]: the same string or both
    undefined, and the same pool object or both undefined. *)
Definition sameContext (i : Instance) (pk : JsString)
    (pool : option RelayPool) : bool :=
  match ctxPublicKey i, pk with
  | Some a, Some b => String.eqb a b
  | None, None => true
  | _, _ => false
  end
  && samePool (ctxRelayPool i) pool.

Definition react (i : Instance) (e : Event) : list Act :=
  match e with
  | Mounted m1 m2 m3 =>
      let cl := first i in
      trace (contextEffect cl m1)
      ++ trace (eventEffect cl m2)
      ++ trace (pageSizeEffect cl m3)
  | Scrolled nearEnd m =>
      let t := trace (onScroll (render i) nearEnd) in
      let i' := withState i (commit (state i) t) in
      if Z.eqb (State.pageSize (state i')) (State.pageSize (state i))
      then t
      else t ++ trace (pageSizeEffect (render i') m)
  | Refreshed m => trace (onRefresh (first i) m)
  | EventArrived m => trace (eventEffect (render i) m)
  | ContextChanged db pk pool m =>
      if sameContext i pk pool then []
      else
        trace (contextEffect
                 {| database := db; publicKey := pk; relayPool := pool;
                    pageSize := State.pageSize (state i) |} m)
  end.

Definition step (i : Instance) (e : Event) : Instance :=
  let i' := withState i (commit (state i) (react i e)) in
  match e with
  | ContextChanged db pk pool _ =>
      {| first := first i';
         ctxDatabase := db; ctxPublicKey := pk; ctxRelayPool := pool;
         state := state i' |}
  | _ => i'
  end.

Definition run (i : Instance) (es : list Event) : Instance :=
  fold_left step es i.

Fixpoint pageSizes (i : Instance) (es : list Event) : list Z :=
  match es with
  | [] => []
  | e :: es => State.pageSize (state (step i e)) :: pageSizes (step i e) es
  end.

(** The two channel names of this component. *)
Definition ownName (n : string) : bool :=
  existsb (String.eqb n) [ "mentions-user"; "mentions-answers" ].

End NotificationsFeed.

(** ** Sequences of page sizes *)

(** [growsBy d p ps]: from [p] on, each value of [ps] is the one before it
    plus [d]. *)
Fixpoint growsBy (d p : Z) (ps : list Z) : Prop :=
  match ps with
  | [] => True
  | q :: ps => q = p + d /\ growsBy d q ps
  end.

(** [nonDecreasing p ps]: from [p] on, no value of [ps] is below the one
    before it. *)
Fixpoint nonDecreasing (p : Z) (ps : list Z) : Prop :=
  match ps with
  | [] => True
  | q :: ps => p <= q /\ nonDecreasing q ps
  end.

(** ** Concrete inputs *)

Module Sample.

Definition alice1 : Note.t :=
  {| Note.id := Some "n1"; Note.pubkey := Some "alice";
     Note.repost_id := None; Note.created_at := Some 100 |}.

(** A second note of the same author. *)
Definition alice2 : Note.t :=
  {| Note.id := Some "n2"; Note.pubkey := Some "alice";
     Note.repost_id := None; Note.created_at := Some 101 |}.

(** A repost of the note "n0". *)
Definition bobRepost : Note.t :=
  {| Note.id := Some "n3"; Note.pubkey := Some "bob";
     Note.repost_id := Some "n0"; Note.created_at := Some 102 |}.

(** A note whose [id] and [pubkey] are undefined. *)
Definition anonymous : Note.t :=
  {| Note.id := None; Note.pubkey := None;
     Note.repost_id := None; Note.created_at := None |}.

(** Closures in which the viewer "A" is signed in and the database and the
    relay pool are there. *)
Definition reactions (ps : Z) : ReactionsFeed.Closure :=
  {| ReactionsFeed.database := Some QuickSQLiteConnection;
     ReactionsFeed.publicKey := Some "A";
     ReactionsFeed.relayPool := Some RelayPoolRef;
     ReactionsFeed.pageSize := ps |}.

Definition notifications (ps : Z) : NotificationsFeed.Closure :=
  {| NotificationsFeed.database := Some QuickSQLiteConnection;
     NotificationsFeed.publicKey := Some "A";
     NotificationsFeed.relayPool := Some RelayPoolRef;
     NotificationsFeed.pageSize := ps |}.

(** A Store in which every query resolves. *)
Definition store (notes : list Note.t) : ReactionsFeed.Store :=
  {| ReactionsFeed.reacted := Resolved notes;
     ReactionsFeed.lastReaction := Resolved None;
     ReactionsFeed.lastReply := Resolved None |}.

(** The mounted components of a signed-in viewer. *)
Definition reactionsFeed : ReactionsFeed.Instance :=
  ReactionsFeed.mount (Some QuickSQLiteConnection) (Some "A") (Some RelayPoolRef).

Definition notificationsFeed : NotificationsFeed.Instance :=
  NotificationsFeed.mount (Some QuickSQLiteConnection) (Some "A") (Some RelayPoolRef).

(** A ReactionsFeed mounted before the viewer signed in. *)
Definition signedOut : ReactionsFeed.Instance :=
  ReactionsFeed.mount (Some QuickSQLiteConnection) None (Some RelayPoolRef).

End Sample.

(** ** What the components render

    The JSX the two components return, reduced to the parts that depend on
    the state: which elements are there and what they are given. *)

(** [renderItem]: a [View] keyed by the note's [id] around a [NoteCard] of
    the note, in both components. *)
Module Card.
Record t : Type := mk {
  key : JsString;
  note : Note.t;
}.
End Card.

Definition renderItem (note : Note.t) : Card.t :=
  {| Card.key := Note.id note; Card.note := note |}.

Module ReactionsView.

(** The props of the [FlashList] that depend on the state.  The list is
    always rendered, with its [RefreshControl] and [onScroll]. *)
Record FlashList : Type := {
  data : list Note.t;
  refreshing : bool;
  (** [ListFooterComponent] is an [ActivityIndicator] rather than an empty
      fragment. *)
  listFooter : bool;
}.

Definition render (s : State.t) : FlashList :=
  {| data := State.notes s;
     refreshing := State.refreshing s;
     listFooter := 0 <? Z.of_nat (List.length (State.notes s)) |}.

End ReactionsView.

Module NotificationsView.

(** The [ScrollView], which carries the [RefreshControl] and [onScroll]:
    its children are the cards, followed by an [ActivityIndicator] when
    [footer] is set. *)
Record ScrollView : Type := {
  refreshing : bool;
  cards : list Card.t;
  footer : bool;
}.

(** The fragment the component returns: the [ScrollView], if rendered, and
    the bottom sheet with its [ProfileCard]. *)
Record Screen : Type := {
  scrollView : option ScrollView;
  userPubKey : string;
}.

(** [notes && notes.length > 0 && (...)], [notes.length >= 10 && ...] and
    [profileCardPubkey ?? '']. *)
Definition render (s : State.t) (profileCardPubkey : JsString) : Screen :=
  {| scrollView :=
       if 0 <? Z.of_nat (List.length (State.notes s))
       then Some {| refreshing := State.refreshing s;
                    cards := map renderItem (State.notes s);
                    footer := 10 <=? Z.of_nat (List.length (State.notes s)) |}
       else None;
     userPubKey := profileCardPubkey ?? "" |}.

(** [onPressOptions] of the card of [note]: the value given to
    [setProfileCardPubKey]. *)
Definition onPressOptions (note : Note.t) : JsString := Note.pubkey note.

End NotificationsView.

(** ** Counting page growths *)

(** The events that are scrolls to the end of the list. *)
Definition reactionsGrowth (e : ReactionsFeed.Event) : bool :=
  match e with
  | ReactionsFeed.Scrolled true => true
  | _ => false
  end.

Definition notificationsGrowth (e : NotificationsFeed.Event) : bool :=
  match e with
  | NotificationsFeed.Scrolled true _ => true
  | _ => false
  end.

(** A pool call that issues a subscription under one of [names]. *)
Definition subscribesWithin (Filter : Type) (names : list string)
    (c : PoolCall Filter) : bool :=
  match c with
  | Subscribe n _ => existsb (String.eqb n) names
  | _ => false
  end.

(** The ids [loadNotes] of ReactionsFeed asks the originals of. *)
Definition repostIdsOf (notes : list Note.t) : list string :=
  map (fun note => Note.repost_id note ?? "")
      (filter (fun note => truthy (Note.repost_id note)) notes).

(** * Properties *)

Unset Implicit Arguments.

(** ** Traces *)

Section TraceFacts.
Variable Filter : Type.
Implicit Types t u : list (Action Filter).

Lemma trace_bind (A B : Type) (m : Eff Filter A) (f : A -> Eff Filter B) :
  trace (bind m f) =
  trace m ++ match snd m with Some a => trace (f a) | None => [] end.
Proof.
  destruct m as [t [a|]]; unfold trace; simpl.
  - destruct (f a); reflexivity.
  - now rewrite app_nil_r.
Qed.

Lemma bind_ret_l (A B : Type) (a : A) (f : A -> Eff Filter B) :
  bind (ret a) f = f a.
Proof. unfold bind, ret. now destruct (f a). Qed.

Lemma poolCalls_app t u : poolCalls (t ++ u) = poolCalls t ++ poolCalls u.
Proof.
  induction t as [|[ | | |c] t IH]; simpl; auto. now rewrite IH.
Qed.

Lemma subscribed_app t u : subscribed (t ++ u) = subscribed t ++ subscribed u.
Proof.
  induction t as [|[ | | |[ | | ]] t IH]; simpl; auto. now rewrite IH.
Qed.

Lemma issued_app name t u :
  issued name (t ++ u) = issued name t ++ issued name u.
Proof.
  induction t as [|[ | | |[n fs| | ]] t IH]; simpl; auto.
  destruct (String.eqb n name); simpl; now rewrite IH.
Qed.

Lemma notesWrites_app t u :
  notesWrites (t ++ u) = notesWrites t ++ notesWrites u.
Proof.
  induction t as [|[ | | | ] t IH]; simpl; auto. now rewrite IH.
Qed.

Lemma refreshingWrites_app t u :
  refreshingWrites (t ++ u) = refreshingWrites t ++ refreshingWrites u.
Proof.
  induction t as [|[ | | | ] t IH]; simpl; auto. now rewrite IH.
Qed.

Lemma addressedWithin_app (own : string -> bool) t u :
  forallb (addressedWithin own) (poolCalls (t ++ u))
  = forallb (addressedWithin own) (poolCalls t)
    && forallb (addressedWithin own) (poolCalls u).
Proof. now rewrite poolCalls_app, forallb_app. Qed.

Lemma commit_app (s : State.t) t u : commit (commit s t) u = commit s (t ++ u).
Proof. unfold commit. now rewrite fold_left_app. Qed.

Lemma pageSizeWrites_app t u :
  pageSizeWrites (t ++ u) = pageSizeWrites t ++ pageSizeWrites u.
Proof.
  induction t as [|[ | | | ] t IH]; simpl; auto. now rewrite IH.
Qed.

Lemma last_nonempty (A : Type) (a : A) (l : list A) (d d' : A) :
  last (a :: l) d = last (a :: l) d'.
Proof.
  revert a; induction l as [|b l IH]; intros a; [reflexivity|].
  change (last (b :: l) d = last (b :: l) d'). apply IH.
Qed.

(** The page size after a trace is the last value written, if any. *)
Lemma commit_pageSize (s : State.t) t :
  State.pageSize (commit s t) = last (pageSizeWrites t) (State.pageSize s).
Proof.
  revert s; induction t as [|a t IH]; intros s; [reflexivity|].
  unfold commit in *; simpl fold_left. rewrite IH.
  destruct a; simpl; try reflexivity.
  destruct (pageSizeWrites t); [reflexivity|apply last_nonempty].
Qed.

(** A trace without [setRefreshing] leaves the indicator alone. *)
Lemma commit_refreshing (s : State.t) t :
  refreshingWrites t = [] ->
  State.refreshing (commit s t) = State.refreshing s.
Proof.
  revert s; induction t as [|a t IH]; intros s H; simpl; [reflexivity|].
  unfold commit in *; simpl.
  destruct a; simpl in H; try discriminate; rewrite IH; auto.
Qed.

(** A trace without [setNotes] leaves the items alone. *)
Lemma commit_notes (s : State.t) t :
  notesWrites t = [] ->
  State.notes (commit s t) = State.notes s.
Proof.
  revert s; induction t as [|a t IH]; intros s H; simpl; [reflexivity|].
  unfold commit in *; simpl.
  destruct a; simpl in H; try discriminate; rewrite IH; auto.
Qed.

End TraceFacts.

(** [repostIds.length > 0] says that some note has a truthy [repost_id]. *)
Lemma filter_map_nonempty (A B : Type) (p : A -> bool) (f : A -> B) (l : list A) :
  (0 <? Z.of_nat (List.length (map f (filter p l)))) = existsb p l.
Proof.
  induction l as [|a l IH]; simpl; [reflexivity|].
  destruct (p a); simpl; [|exact IH].
  apply Z.ltb_lt. lia.
Qed.

Lemma nonempty_ltb (A : Type) (l : list A) :
  (0 < List.length l)%nat -> (0 <? Z.of_nat (List.length l)) = true.
Proof. intros H. apply Z.ltb_lt. lia. Qed.

(** Case analysis on the tests left in a goal. *)
Ltac split_ifs :=
  repeat match goal with
         | |- context [if ?b then _ else _] => destruct b; simpl
         end.

Ltac case_ifs :=
  repeat match goal with
         | |- context [if ?b then _ else _] => destruct b
         end.

(** Case analysis on the context values a closure captured. *)
Ltac split_context db pk pool :=
  destruct db as [[]|]; destruct pool as [[]|];
  destruct pk as [pk|]; simpl; try destruct (String.eqb pk ""); simpl.

(** ** Loading *)

Module LoadFacts.
Import ReactionsFeed.

Lemma loadNotes_resolved cl notes lastReaction lastReply :
  loadNotes cl (Resolved notes) lastReaction lastReply
  = when (defined (database cl) && truthy (publicKey cl))
      (loadNotes_then cl notes lastReaction lastReply).
Proof. unfold loadNotes. simpl await. now rewrite bind_ret_l. Qed.

Lemma loadNotes_rejected cl lastReaction lastReply :
  trace (loadNotes cl Rejected lastReaction lastReply) = [].
Proof.
  destruct cl as [db pk pool ps]; unfold loadNotes;
    split_context db pk pool; reflexivity.
Qed.

Ltac split_load cl notes lastReaction lastReply :=
  unfold loadNotes_then; cbv zeta; rewrite filter_map_nonempty;
  destruct (existsb (fun note => truthy (Note.repost_id note)) notes);
  destruct (0 <? Z.of_nat (List.length notes));
  destruct cl as [db pk pool ps]; split_context db pk pool;
  destruct lastReaction, lastReply.

Lemma loadNotes_subscribed cl notes lastReaction lastReply :
  (0 < List.length notes)%nat ->
  subscribed (trace (loadNotes cl (Resolved notes) lastReaction lastReply))
  = enrichment cl notes lastReaction lastReply.
Proof.
  intros Hn. rewrite loadNotes_resolved. unfold enrichment.
  unfold loadNotes_then; cbv zeta.
  rewrite filter_map_nonempty, (nonempty_ltb _ _ Hn).
  destruct (existsb _ notes);
    destruct cl as [db pk pool ps]; split_context db pk pool;
    destruct lastReaction, lastReply; reflexivity.
Qed.

(** An empty result: the items are replaced by the empty list and nothing
    else happens. *)
Lemma loadNotes_empty cl lastReaction lastReply :
  trace (loadNotes cl (Resolved []) lastReaction lastReply)
  = if defined (database cl) && truthy (publicKey cl)
    then [SetNotes []] else [].
Proof.
  destruct cl as [db pk pool ps]; unfold loadNotes; split_context db pk pool;
    reflexivity.
Qed.

(** [loadNotes] of ReactionsFeed never calls [setRefreshing]. *)
Lemma loadNotes_refreshingWrites cl reacted lastReaction lastReply :
  refreshingWrites (trace (loadNotes cl reacted lastReaction lastReply)) = [].
Proof.
  destruct reacted as [notes|].
  - rewrite loadNotes_resolved.
    split_load cl notes lastReaction lastReply; reflexivity.
  - now rewrite loadNotes_rejected.
Qed.

(** What [loadNotes] writes to the items: the query result when the guards
    hold and the query resolves, nothing otherwise. *)
Lemma loadNotes_notesWrites cl reacted lastReaction lastReply :
  notesWrites (trace (loadNotes cl reacted lastReaction lastReply))
  = if defined (database cl) && truthy (publicKey cl)
    then match reacted with Resolved notes => [notes] | Rejected => [] end
    else [].
Proof.
  destruct reacted as [notes|].
  - rewrite loadNotes_resolved.
    split_load cl notes lastReaction lastReply; reflexivity.
  - rewrite loadNotes_rejected.
    destruct cl as [db pk pool ps]; split_context db pk pool; reflexivity.
Qed.

End LoadFacts.

Module NotificationFacts.
Import NotificationsFeed.

Lemma mentions_loadNotes_resolved cl notes :
  loadNotes cl (Resolved notes)
  = when (defined (database cl) && truthy (publicKey cl))
      (loadNotes_then cl notes).
Proof. unfold loadNotes. simpl await. now rewrite bind_ret_l. Qed.

Lemma mentions_loadNotes_rejected cl :
  trace (loadNotes cl Rejected) = [].
Proof.
  destruct cl as [db pk pool ps]; unfold loadNotes;
    split_context db pk pool; reflexivity.
Qed.

(** [loadNotes] subscribes under one name, whatever the query returned. *)
Lemma mentions_loadNotes_subscribed cl notes :
  subscribed (trace (loadNotes cl (Resolved notes)))
  = if defined (database cl) && truthy (publicKey cl) && defined (relayPool cl)
    then ["mentions-answers"] else [].
Proof.
  rewrite mentions_loadNotes_resolved. unfold loadNotes_then.
  destruct cl as [db pk pool ps]; split_context db pk pool; reflexivity.
Qed.

(** The setter calls of a [loadNotes] whose query resolved. *)
Lemma loadNotes_writes cl notes :
  defined (database cl) = true -> truthy (publicKey cl) = true ->
  notesWrites (trace (loadNotes cl (Resolved notes))) = [notes] /\
  refreshingWrites (trace (loadNotes cl (Resolved notes))) = [false].
Proof.
  intros Hdb Hpk. rewrite mentions_loadNotes_resolved, Hdb, Hpk. unfold loadNotes_then.
  destruct (relayPool cl) as [[]|]; split; reflexivity.
Qed.

Lemma mentions_subscribeNotes_trace cl :
  trace (subscribeNotes cl)
  = if defined (database cl) && truthy (publicKey cl) && defined (relayPool cl)
    then [ Pool (Subscribe "mentions-user"
                   [ {| kinds := [textNote];
                        authors := None; tag_e := None;
                        tag_p := Some [publicKey cl ?? ""];
                        limit := Some (pageSize cl) |};
                     {| kinds := [textNote];
                        authors := None;
                        tag_e := Some [publicKey cl ?? ""];
                        tag_p := None;
                        limit := Some (pageSize cl) |} ]) ]
    else [].
Proof.
  destruct cl as [db pk pool ps]; unfold subscribeNotes;
    split_context db pk pool; reflexivity.
Qed.

(** The synchronous part of the effect on [pageSize], followed by the
    load it starts. *)
Lemma pageSizeEffect_trace cl mentions :
  trace (pageSizeEffect cl mentions)
  = if initialPageSize <? pageSize cl
    then (if defined (relayPool cl) then [Pool UnsubscribeAll] else [])
         ++ trace (subscribeNotes cl) ++ trace (loadNotes cl mentions)
    else [].
Proof.
  unfold pageSizeEffect, when. destruct (_ <? _); [|reflexivity].
  rewrite !trace_bind.
  assert (Hs : snd (subscribeNotes cl) = Some tt).
  { destruct cl as [db pk pool ps]; unfold subscribeNotes;
      split_context db pk pool; reflexivity. }
  rewrite Hs. destruct (relayPool cl) as [[]|]; reflexivity.
Qed.

Lemma restart_trace cl mentions :
  trace (restart cl mentions)
  = (if defined (relayPool cl) then [Pool UnsubscribeAll] else [])
    ++ if defined (relayPool cl) && truthy (publicKey cl)
       then trace (subscribeNotes cl) ++ trace (loadNotes cl mentions)
       else [].
Proof.
  unfold restart, calculateInitialNotes, when. rewrite !trace_bind.
  assert (Hs : snd (subscribeNotes cl) = Some tt).
  { destruct cl as [db pk pool ps]; unfold subscribeNotes;
      split_context db pk pool; reflexivity. }
  destruct cl as [db pk pool ps]; simpl in *.
  destruct pool as [[]|]; simpl; [|reflexivity].
  destruct (truthy pk); simpl; [|reflexivity].
  rewrite trace_bind.
  destruct db as [[]|]; simpl.
  - now rewrite Hs.
  - reflexivity.
Qed.

Lemma mentions_loadNotes_pageSizeWrites cl mentions :
  pageSizeWrites (trace (loadNotes cl mentions)) = [].
Proof.
  destruct mentions as [notes|].
  - rewrite mentions_loadNotes_resolved. unfold loadNotes_then.
    destruct cl as [db pk pool ps]; split_context db pk pool; reflexivity.
  - now rewrite mentions_loadNotes_rejected.
Qed.

Lemma mentions_subscribeNotes_pageSizeWrites cl :
  pageSizeWrites (trace (subscribeNotes cl)) = [].
Proof. rewrite mentions_subscribeNotes_trace. destruct (_ && _ && _); reflexivity. Qed.

Lemma pageSizeEffect_pageSizeWrites cl mentions :
  pageSizeWrites (trace (pageSizeEffect cl mentions)) = [].
Proof.
  rewrite pageSizeEffect_trace.
  destruct (_ <? _); [|reflexivity].
  rewrite !pageSizeWrites_app, mentions_subscribeNotes_pageSizeWrites,
    mentions_loadNotes_pageSizeWrites.
  destruct (defined (relayPool cl)); reflexivity.
Qed.

Lemma restart_pageSizeWrites cl mentions :
  pageSizeWrites (trace (restart cl mentions)) = [].
Proof.
  rewrite restart_trace, pageSizeWrites_app.
  destruct (defined (relayPool cl)), (truthy (publicKey cl)); simpl;
    rewrite ?pageSizeWrites_app, ?mentions_subscribeNotes_pageSizeWrites,
      ?mentions_loadNotes_pageSizeWrites; reflexivity.
Qed.

(** A scroll that reaches the end of the list: the page grows, and the
    effect on [pageSize] runs in the closure of the next render. *)
Lemma mentions_react_scrolled i mentions :
  react i (Scrolled true mentions)
  = SetPageSize (State.pageSize (state i) + initialPageSize)
    :: trace (pageSizeEffect
                {| database := ctxDatabase i;
                   publicKey := ctxPublicKey i;
                   relayPool := ctxRelayPool i;
                   pageSize := State.pageSize (state i) + initialPageSize |}
                mentions).
Proof.
  destruct i as [f db pk pool [ns p r]]; simpl in *.
  unfold react, onScroll, render, withState.
  cbn [when emit trace fst commit fold_left setState state State.pageSize
       ctxDatabase ctxPublicKey ctxRelayPool pageSize].
  unfold initialPageSize.
  replace (p + 10 =? p) with false by (symmetry; apply Z.eqb_neq; lia).
  reflexivity.
Qed.

Lemma mentions_react_pageSizeWrites i e :
  pageSizeWrites (react i e)
  = match e with
    | Scrolled true _ => [State.pageSize (state i) + initialPageSize]
    | _ => []
    end.
Proof.
  destruct e as [m1 m2 m3|[|] m|m|m|db pk pool m].
  - simpl. unfold contextEffect, eventEffect.
    now rewrite !pageSizeWrites_app, restart_pageSizeWrites,
      mentions_loadNotes_pageSizeWrites, pageSizeEffect_pageSizeWrites.
  - rewrite mentions_react_scrolled. simpl.
    now rewrite pageSizeEffect_pageSizeWrites.
  - simpl. now rewrite Z.eqb_refl.
  - simpl. unfold onRefresh. rewrite trace_bind. simpl.
    now rewrite restart_pageSizeWrites.
  - simpl. apply mentions_loadNotes_pageSizeWrites.
  - simpl. destruct (sameContext i pk pool); [reflexivity|].
    apply restart_pageSizeWrites.
Qed.

Lemma mentions_step_pageSize i e :
  State.pageSize (state (step i e))
  = match e with
    | Scrolled true _ => State.pageSize (state i) + initialPageSize
    | _ => State.pageSize (state i)
    end.
Proof.
  assert (H : State.pageSize (state (step i e))
              = State.pageSize (commit (state i) (react i e)))
    by (destruct e; reflexivity).
  rewrite H, commit_pageSize, mentions_react_pageSizeWrites.
  destruct e as [| [|] | | |]; reflexivity.
Qed.

Lemma mentions_first_step i e : first (step i e) = first i.
Proof. destruct e; reflexivity. Qed.

Lemma mentions_first_run es : forall i, first (run i es) = first i.
Proof.
  induction es as [|e es IH]; intros i; simpl; [reflexivity|].
  unfold run in *. simpl. now rewrite IH, mentions_first_step.
Qed.

(** *** The pool calls of NotificationsFeed *)

Lemma mentions_loadNotes_trace cl mentions :
  trace (loadNotes cl mentions)
  = if defined (database cl) && truthy (publicKey cl)
    then match mentions with
         | Resolved notes =>
             SetNotes notes :: SetRefreshing false ::
             (if defined (relayPool cl)
              then [ Pool (Subscribe "mentions-answers"
                             [ {| kinds := [reaction];
                                  authors := None;
                                  tag_e := Some (map (fun note => Note.id note ?? "") notes);
                                  tag_p := None; limit := None |};
                               {| kinds := [meta];
                                  authors := Some (map (fun note => Note.pubkey note) notes);
                                  tag_e := None; tag_p := None; limit := None |} ]) ]
              else [])
         | Rejected => []
         end
    else [].
Proof.
  destruct mentions as [notes|].
  - rewrite mentions_loadNotes_resolved. unfold loadNotes_then.
    destruct cl as [db pk pool ps]; split_context db pk pool; reflexivity.
  - rewrite mentions_loadNotes_rejected. split_ifs; reflexivity.
Qed.

Lemma onRefresh_restart cl mentions :
  trace (onRefresh cl mentions) = SetRefreshing true :: trace (restart cl mentions).
Proof. unfold onRefresh. now rewrite trace_bind. Qed.

Ltac mentions_traces :=
  rewrite ?onRefresh_restart, ?restart_trace, ?pageSizeEffect_trace,
    ?mentions_subscribeNotes_trace, ?mentions_loadNotes_trace.

(** Every reaction of NotificationsFeed retires everything before it issues
    the primary channel. *)
Lemma mentions_react_retires j e live :
  retiresFirst "mentions-user" live (poolCalls (react j e)) = true.
Proof.
  destruct e as [m1 m2 m3|[|] m|m|m|db' pk' pool' m].
  - simpl. unfold contextEffect, eventEffect. mentions_traces.
    destruct (first j) as [db pk pool ps]; split_context db pk pool;
      destruct m1, m2, m3, live; split_ifs; reflexivity.
  - rewrite mentions_react_scrolled. mentions_traces.
    destruct j as [f db pk pool [ns q r]]; split_context db pk pool;
      destruct m, live; split_ifs; reflexivity.
  - simpl. now rewrite Z.eqb_refl.
  - simpl. mentions_traces.
    destruct (first j) as [db pk pool ps]; split_context db pk pool;
      destruct m, live; reflexivity.
  - simpl. unfold eventEffect. mentions_traces.
    destruct j as [f db pk pool [ns q r]]; split_context db pk pool;
      destruct m, live; reflexivity.
  - simpl. destruct (sameContext j pk' pool'); [reflexivity|].
    unfold contextEffect. mentions_traces.
    split_context db' pk' pool'; destruct m, live; reflexivity.
Qed.

(** NotificationsFeed subscribes under its two channel names only. *)
Lemma mentions_react_subscribes j e :
  forallb ownName (subscribed (react j e)) = true.
Proof.
  destruct e as [m1 m2 m3|[|] m|m|m|db' pk' pool' m].
  - simpl. unfold contextEffect, eventEffect. mentions_traces.
    destruct (first j) as [db pk pool ps]; split_context db pk pool;
      destruct m1, m2, m3; split_ifs; reflexivity.
  - rewrite mentions_react_scrolled. mentions_traces.
    destruct j as [f db pk pool [ns q r]]; split_context db pk pool;
      destruct m; split_ifs; reflexivity.
  - simpl. now rewrite Z.eqb_refl.
  - simpl. mentions_traces.
    destruct (first j) as [db pk pool ps]; split_context db pk pool;
      destruct m; reflexivity.
  - simpl. unfold eventEffect. mentions_traces.
    destruct j as [f db pk pool [ns q r]]; split_context db pk pool;
      destruct m; reflexivity.
  - simpl. destruct (sameContext j pk' pool'); [reflexivity|].
    unfold contextEffect. mentions_traces.
    split_context db' pk' pool'; destruct m; reflexivity.
Qed.

End NotificationFacts.

(** ** Subscribing and page growth *)

Module ReactionFacts.
Import ReactionsFeed.

(** The filter [subscribeNotes] sends under "homepage-contacts-main". *)
Lemma subscribeNotes_trace cl :
  trace (subscribeNotes cl)
  = if defined (database cl) && truthy (publicKey cl)
    then
      (if defined (relayPool cl)
       then [ Pool (Subscribe "homepage-contacts-main"
                      [ {| kinds := [Reaction];
                           authors := Some [publicKey cl ?? ""];
                           ids := None; tag_e := None; since := None;
                           limit := Some (pageSize cl) |} ]) ]
       else [])
      ++ [SetRefreshing false]
    else [].
Proof.
  destruct cl as [db pk pool ps]; unfold subscribeNotes;
    split_context db pk pool; reflexivity.
Qed.

Lemma unsubscribe_trace cl :
  trace (unsubscribe cl)
  = if defined (relayPool cl)
    then [ Pool (Unsubscribe
                   [ "homepage-contacts-main";
                     "homepage-contacts-meta";
                     "homepage-contacts-replies";
                     "homepage-contacts-reactions";
                     "homepage-contacts-repost" ]) ]
    else [].
Proof. unfold unsubscribe. destruct (relayPool cl) as [[]|]; reflexivity. Qed.

Lemma onRefresh_trace cl :
  trace (onRefresh cl)
  = SetRefreshing true :: trace (unsubscribe cl) ++ trace (subscribeNotes cl).
Proof.
  unfold onRefresh. rewrite !trace_bind.
  rewrite unsubscribe_trace.
  unfold unsubscribe. destruct (relayPool cl) as [[]|]; reflexivity.
Qed.

(** A scroll that reaches the end of the list: the page grows and the
    effect on [pageSize] subscribes again in the closure of the next
    render. *)
Lemma react_scrolled i :
  0 < State.pageSize (state i) ->
  react i (Scrolled true)
  = SetPageSize (State.pageSize (state i) + initialPageSize)
    :: trace (subscribeNotes
                {| database := ctxDatabase i;
                   publicKey := ctxPublicKey i;
                   relayPool := ctxRelayPool i;
                   pageSize := State.pageSize (state i) + initialPageSize |}).
Proof.
  intros Hp. destruct i as [f db pk pool [ns p r]]; simpl in *.
  unfold react, onScroll, pageSizeEffect, render, withState.
  cbn [when emit trace fst commit fold_left setState state State.pageSize
       ctxDatabase ctxPublicKey ctxRelayPool pageSize].
  unfold initialPageSize.
  replace (p + 10 =? p) with false by (symmetry; apply Z.eqb_neq; lia).
  replace (10 <? p + 10) with true by (symmetry; apply Z.ltb_lt; lia).
  reflexivity.
Qed.

(** A scroll elsewhere does nothing. *)
Lemma react_scrolled_elsewhere i : react i (Scrolled false) = [].
Proof.
  destruct i as [f db pk pool [ns p r]].
  unfold react, onScroll. simpl. now rewrite Z.eqb_refl.
Qed.

(** No handler but [onScroll] calls [setPageSize]. *)
Lemma subscribeNotes_pageSizeWrites cl :
  pageSizeWrites (trace (subscribeNotes cl)) = [].
Proof.
  rewrite subscribeNotes_trace.
  destruct (_ && _), (defined (relayPool cl)); reflexivity.
Qed.

Lemma unsubscribe_pageSizeWrites cl :
  pageSizeWrites (trace (unsubscribe cl)) = [].
Proof.
  rewrite unsubscribe_trace. destruct (defined (relayPool cl)); reflexivity.
Qed.

Lemma loadNotes_pageSizeWrites cl reacted lastReaction lastReply :
  pageSizeWrites (trace (loadNotes cl reacted lastReaction lastReply)) = [].
Proof.
  destruct reacted as [notes|].
  - rewrite LoadFacts.loadNotes_resolved.
    LoadFacts.split_load cl notes lastReaction lastReply; reflexivity.
  - now rewrite LoadFacts.loadNotes_rejected.
Qed.

Lemma react_pageSizeWrites i e :
  pageSizeWrites (react i e)
  = match e with
    | Scrolled true => [State.pageSize (state i) + initialPageSize]
    | _ => []
    end.
Proof.
  destruct e as [s1 s2|[|]| |s|db pk pool]; simpl.
  - unfold mountEffect, eventEffect, pageSizeEffect, when.
    rewrite !pageSizeWrites_app, !trace_bind.
    destruct (snd (unsubscribe (first i)));
      destruct (snd (subscribeNotes (first i)));
      destruct (_ && _); destruct (_ <? _);
      rewrite ?pageSizeWrites_app, ?unsubscribe_pageSizeWrites,
        ?subscribeNotes_pageSizeWrites, ?loadNotes_pageSizeWrites;
      reflexivity.
  - destruct (_ =? _); [reflexivity|].
    unfold pageSizeEffect, when. destruct (_ <? _); simpl;
      [now rewrite subscribeNotes_pageSizeWrites|reflexivity].
  - now rewrite Z.eqb_refl.
  - rewrite onRefresh_trace. simpl.
    now rewrite pageSizeWrites_app, unsubscribe_pageSizeWrites,
      subscribeNotes_pageSizeWrites.
  - unfold eventEffect, when.
    destruct (_ && _); [apply loadNotes_pageSizeWrites|reflexivity].
  - reflexivity.
Qed.

(** The page size after one event. *)
Lemma step_pageSize i e :
  State.pageSize (state (step i e))
  = match e with
    | Scrolled true => State.pageSize (state i) + initialPageSize
    | _ => State.pageSize (state i)
    end.
Proof.
  assert (H : State.pageSize (state (step i e))
              = State.pageSize (commit (state i) (react i e)))
    by (destruct e; reflexivity).
  rewrite H, commit_pageSize, react_pageSizeWrites.
  destruct e as [| [|] | | |]; reflexivity.
Qed.

(** [onRefresh] is the first render's, and the first render's page size is
    the initial one, whatever happened since. *)
Lemma first_step i e : first (step i e) = first i.
Proof. destruct e; reflexivity. Qed.

Lemma first_run es : forall i, first (run i es) = first i.
Proof.
  induction es as [|e es IH]; intros i; simpl; [reflexivity|].
  unfold run in *. simpl. now rewrite IH, first_step.
Qed.

(** *** The channel names ReactionsFeed addresses *)

Lemma mountEffect_trace cl reacted lastReaction lastReply :
  trace (mountEffect cl reacted lastReaction lastReply)
  = trace (unsubscribe cl) ++ trace (subscribeNotes cl)
    ++ trace (loadNotes cl reacted lastReaction lastReply).
Proof.
  unfold mountEffect. rewrite !trace_bind.
  assert (Hu : snd (unsubscribe cl) = Some tt)
    by (unfold unsubscribe; destruct (relayPool cl) as [[]|]; reflexivity).
  assert (Hs : snd (subscribeNotes cl) = Some tt).
  { destruct cl as [db pk pool ps]; unfold subscribeNotes;
      split_context db pk pool; reflexivity. }
  now rewrite Hu, Hs.
Qed.

Lemma unsubscribe_own cl :
  forallb (addressedWithin ownName) (poolCalls (trace (unsubscribe cl))) = true.
Proof. rewrite unsubscribe_trace. destruct (defined _); reflexivity. Qed.

Lemma subscribeNotes_own cl :
  forallb (addressedWithin ownName) (poolCalls (trace (subscribeNotes cl))) = true.
Proof. rewrite subscribeNotes_trace. split_ifs; reflexivity. Qed.

Lemma loadNotes_own cl reacted lastReaction lastReply :
  forallb (addressedWithin ownName)
    (poolCalls (trace (loadNotes cl reacted lastReaction lastReply))) = true.
Proof.
  destruct reacted as [notes|].
  - rewrite LoadFacts.loadNotes_resolved.
    LoadFacts.split_load cl notes lastReaction lastReply; reflexivity.
  - now rewrite LoadFacts.loadNotes_rejected.
Qed.

Lemma react_own i e :
  forallb (addressedWithin ownName) (poolCalls (react i e)) = true.
Proof.
  destruct e as [s1 s2|[|]| |s|db pk pool]; simpl.
  - rewrite mountEffect_trace. unfold eventEffect, pageSizeEffect, when.
    rewrite !addressedWithin_app, unsubscribe_own, subscribeNotes_own,
      loadNotes_own.
    case_ifs; rewrite ?loadNotes_own, ?subscribeNotes_own; reflexivity.
  - destruct (_ =? _); [reflexivity|].
    unfold pageSizeEffect, when. simpl.
    case_ifs; [apply subscribeNotes_own|reflexivity].
  - now rewrite Z.eqb_refl.
  - rewrite onRefresh_trace. simpl.
    now rewrite addressedWithin_app, unsubscribe_own, subscribeNotes_own.
  - unfold eventEffect, when. case_ifs; [apply loadNotes_own|reflexivity].
  - reflexivity.
Qed.

Lemma ownName_namespaced n : ownName n = true -> namespaced n = true.
Proof.
  unfold ownName. intros H.
  apply existsb_exists in H. destruct H as (m & Hin & Heq).
  apply String.eqb_eq in Heq. subst m.
  simpl in Hin. repeat destruct Hin as [<-|Hin]; try reflexivity.
  contradiction.
Qed.

(** On page growth the only pool call is the issue of the primary channel. *)
Lemma react_scrolled_calls i c :
  In c (poolCalls (react i (Scrolled true))) ->
  exists filters, c = Subscribe "homepage-contacts-main" filters.
Proof.
  simpl. destruct (_ =? _); simpl; [easy|].
  unfold pageSizeEffect, when. case_ifs; [|easy].
  rewrite subscribeNotes_trace. split_ifs; try easy.
  intros [<-|[]]. eauto.
Qed.

(** [onRefresh] retires the primary channel before it issues it again. *)
Lemma onRefresh_retires cl live :
  retiresFirst "homepage-contacts-main" live (poolCalls (trace (onRefresh cl)))
  = true.
Proof.
  rewrite onRefresh_trace, unsubscribe_trace, subscribeNotes_trace.
  destruct cl as [db pk pool ps]; split_context db pk pool;
    destruct live; reflexivity.
Qed.

End ReactionFacts.

(** ** The relay pool *)

Section PoolFacts.
Variable Filter : Type.
Implicit Types p : Live Filter.

Lemma retire_subset names p n :
  In n (map fst (retire names p)) ->
  In n (map fst p) /\ existsb (String.eqb n) names = false.
Proof.
  induction p as [|[k fs] p IH]; simpl; [easy|].
  unfold named; simpl.
  destruct (existsb (String.eqb k) names) eqn:Hk; simpl.
  - intros H. destruct (IH H). auto.
  - intros [<-|H]; [auto|]. destruct (IH H). auto.
Qed.

Lemma retire_exclusive names p : exclusive p -> exclusive (retire names p).
Proof.
  unfold exclusive. induction p as [|[k fs] p IH]; simpl; [easy|].
  intros H. inversion H as [|? ? Hk Hp]; subst.
  destruct (named names (k, fs)); simpl; [auto|].
  constructor; [|auto].
  intros Hin. apply retire_subset in Hin. now destruct Hin.
Qed.

(** Whatever is called, no channel name gets a second live subscription. *)
Lemma poolStep_exclusive p c : exclusive p -> exclusive (poolStep p c).
Proof.
  intros Hp. destruct c as [n fs|names|]; simpl.
  - unfold exclusive; simpl. constructor.
    + intros Hin. apply retire_subset in Hin. destruct Hin as [_ Hn].
      simpl in Hn. now rewrite String.eqb_refl in Hn.
    + now apply retire_exclusive.
  - now apply retire_exclusive.
  - constructor.
Qed.

Lemma poolRun_exclusive t : forall p, exclusive p -> exclusive (poolRun p t).
Proof.
  unfold poolRun. induction (poolCalls t) as [|c cs IH]; intros p Hp; simpl.
  - exact Hp.
  - apply IH. now apply poolStep_exclusive.
Qed.

(** Retiring other names leaves the subscriptions under [n] alone. *)
Lemma liveUnder_retire names p n :
  existsb (String.eqb n) names = false ->
  liveUnder n (retire names p) = liveUnder n p.
Proof.
  intros Hn. unfold liveUnder.
  induction p as [|[k fs] p IH]; simpl; [reflexivity|].
  unfold named; simpl.
  destruct (String.eqb k n) eqn:Hk.
  - apply String.eqb_eq in Hk. subst k. rewrite Hn. simpl.
    rewrite String.eqb_refl. simpl. now rewrite IH.
  - destruct (existsb (String.eqb k) names); simpl; [exact IH|].
    now rewrite Hk.
Qed.

Lemma forallb_existsb_false (own : string -> bool) names n :
  forallb own names = true -> own n = false ->
  existsb (String.eqb n) names = false.
Proof.
  intros Hall Hn. induction names as [|m names IH]; simpl in *; [reflexivity|].
  apply andb_true_iff in Hall. destruct Hall as [Hm Hall].
  rewrite (IH Hall), orb_false_r.
  apply String.eqb_neq. intros ->. congruence.
Qed.

(** A call addressed to names of [own] leaves every other name alone. *)
Lemma poolStep_frame (own : string -> bool) p c n :
  addressedWithin own c = true -> own n = false ->
  liveUnder n (poolStep p c) = liveUnder n p.
Proof.
  intros Hc Hn. destruct c as [m fs|names|]; simpl in *.
  - unfold addressedWithin in Hc; simpl in Hc.
    pose proof (forallb_existsb_false own [m] n Hc Hn) as Hm.
    unfold liveUnder at 1; simpl.
    simpl in Hm. rewrite orb_false_r in Hm.
    rewrite String.eqb_sym, Hm.
    apply liveUnder_retire. simpl. now rewrite Hm.
  - apply liveUnder_retire.
    now apply (forallb_existsb_false own).
  - discriminate.
Qed.

Lemma poolRun_frame (own : string -> bool) t n :
  forallb (addressedWithin own) (poolCalls t) = true -> own n = false ->
  forall p, liveUnder n (poolRun p t) = liveUnder n p.
Proof.
  unfold poolRun. intros Hall Hn.
  induction (poolCalls t) as [|c cs IH]; intros p; simpl; [reflexivity|].
  simpl in Hall. apply andb_true_iff in Hall. destruct Hall as [Hc Hall].
  rewrite (IH Hall). now apply (poolStep_frame own).
Qed.

End PoolFacts.

(** * The feed controller *)

(** ** Loading with an empty result *)

(** In ReactionsFeed a [loadNotes] whose Store query returns no item replaces
    the items by the empty list and subscribes to nothing. *)
Lemma reactions_load_empty cl lastReaction lastReply :
  defined (ReactionsFeed.database cl) = true ->
  truthy (ReactionsFeed.publicKey cl) = true ->
  let t := trace (ReactionsFeed.loadNotes cl (Resolved []) lastReaction lastReply) in
  notesWrites t = [[]] /\ subscribed t = [].
Proof.
  intros Hdb Hpk t. subst t.
  rewrite LoadFacts.loadNotes_empty, Hdb, Hpk. split; reflexivity.
Qed.

(** C1, for NotificationsFeed: [loadNotes] has no test on the number of
    notes.  With an empty result it sets the items to the empty list and
    still subscribes under "mentions-answers", asking for the reactions to
    no note and for the metadata of no author. *)
Theorem C1_notifications_load_empty_subscribes :
  trace (NotificationsFeed.loadNotes (Sample.notifications 10) (Resolved []))
  = [ SetNotes [];
      SetRefreshing false;
      Pool (Subscribe "mentions-answers"
              [ {| NotificationsFeed.kinds := [NotificationsFeed.reaction];
                   NotificationsFeed.authors := None;
                   NotificationsFeed.tag_e := Some [];
                   NotificationsFeed.tag_p := None;
                   NotificationsFeed.limit := None |};
                {| NotificationsFeed.kinds := [NotificationsFeed.meta];
                   NotificationsFeed.authors := Some [];
                   NotificationsFeed.tag_e := None;
                   NotificationsFeed.tag_p := None;
                   NotificationsFeed.limit := None |} ]) ].
Proof. reflexivity. Qed.

(** ** Loading with a non-empty result *)

(** C2 as stated fails: a result of one repost makes ReactionsFeed issue
    four enrichment subscriptions, not at most three. *)
Lemma C2_four_subscriptions :
  let notes := [Sample.bobRepost] in
  let t := trace (ReactionsFeed.loadNotes (Sample.reactions 10)
                    (Resolved notes) (Resolved None) (Resolved None)) in
  (0 < List.length notes)%nat /\
  subscribed t = [ "homepage-contacts-meta"; "homepage-contacts-reactions";
                   "homepage-contacts-replies"; "homepage-contacts-repost" ] /\
  ~ (List.length (subscribed t) <= 3)%nat.
Proof.
  cbv zeta. split; [simpl; lia|]. split; [reflexivity|].
  simpl. lia.
Qed.

(** C2, amended.  For a result of N > 0 notes, [loadNotes] of ReactionsFeed
    issues at most four enrichment subscriptions: metadata, reactions since
    the last known one, replies since the last known one, and the reposted
    originals.  The repost subscription is issued only if some note has a
    non-empty [repost_id], and it is issued for such a result whenever the
    database, the viewer's key and the relay pool are there and both
    since-queries resolve.  [loadNotes] of NotificationsFeed issues at most
    one enrichment subscription, "mentions-answers", and never asks for
    reposted originals. *)
Theorem C2_enrichment_subscriptions
    (cl : ReactionsFeed.Closure) (cl' : NotificationsFeed.Closure)
    (notes : list Note.t)
    (lastReaction : Outcome (option Reaction.t))
    (lastReply : Outcome (option Note.t)) :
  (0 < List.length notes)%nat ->
  let t := trace (ReactionsFeed.loadNotes cl (Resolved notes) lastReaction lastReply) in
  let t' := trace (NotificationsFeed.loadNotes cl' (Resolved notes)) in
  let reposts := existsb (fun note => truthy (Note.repost_id note)) notes in
  (List.length (subscribed t) <= 4)%nat /\
  (In "homepage-contacts-repost" (subscribed t) -> reposts = true) /\
  (defined (ReactionsFeed.database cl) = true ->
   truthy (ReactionsFeed.publicKey cl) = true ->
   defined (ReactionsFeed.relayPool cl) = true ->
   lastReaction <> Rejected -> lastReply <> Rejected ->
   subscribed t =
     [ "homepage-contacts-meta"; "homepage-contacts-reactions";
       "homepage-contacts-replies" ]
     ++ (if reposts then ["homepage-contacts-repost"] else [])) /\
  (List.length (subscribed t') <= 1)%nat /\
  (forall n, In n (subscribed t') -> n = "mentions-answers").
Proof.
  intros Hn t t' reposts. subst t t'.
  rewrite LoadFacts.loadNotes_subscribed by exact Hn.
  rewrite NotificationFacts.mentions_loadNotes_subscribed.
  unfold ReactionsFeed.enrichment. fold reposts.
  repeat split.
  - destruct (_ && _ && _), lastReaction, lastReply, reposts; simpl; lia.
  - destruct (_ && _ && _), lastReaction, lastReply, reposts; simpl;
      intuition discriminate.
  - intros -> -> -> Hr Hp.
    destruct lastReaction; [|congruence]. destruct lastReply; [|congruence].
    reflexivity.
  - destruct (_ && _ && _); simpl; lia.
  - intros n. destruct (_ && _ && _); simpl; intuition.
Qed.

Lemma C2_enrichment_subscriptions_witness :
  let t := trace (ReactionsFeed.loadNotes (Sample.reactions 10)
                    (Resolved [Sample.alice1; Sample.bobRepost])
                    (Resolved None) (Resolved None)) in
  (List.length (subscribed t) <= 4)%nat /\
  In "homepage-contacts-repost" (subscribed t).
Proof.
  pose proof (C2_enrichment_subscriptions (Sample.reactions 10)
                (Sample.notifications 10)
                [Sample.alice1; Sample.bobRepost]
                (Resolved None) (Resolved None)) as H.
  cbv zeta in *. destruct H as (Hle & _ & Heq & _); [simpl; lia|].
  split; [exact Hle|].
  rewrite Heq; try reflexivity; try discriminate.
  simpl. auto.
Defined.

(** ** Page growth *)

(** C3 as stated fails: in NotificationsFeed the effect on [pageSize] calls
    [loadNotes] itself, so the growth of the page replaces the items in the
    same reaction. *)
Lemma C3_notifications_growth_loads :
  let e := NotificationsFeed.Scrolled true (Resolved [Sample.alice1]) in
  let t := NotificationsFeed.react Sample.notificationsFeed e in
  pageSizeWrites t = [20] /\
  notesWrites t = [[Sample.alice1]] /\
  State.notes (NotificationsFeed.state Sample.notificationsFeed) = [] /\
  State.notes (NotificationsFeed.state
                 (NotificationsFeed.step Sample.notificationsFeed e))
  = [Sample.alice1].
Proof. cbv zeta. repeat split; reflexivity. Qed.

(** C3, amended.  A scroll to the end of the list adds [initialPageSize] to
    [pageSize].  In ReactionsFeed this change alone makes the primary
    subscription be issued again with the new limit; [loadNotes] is not
    called and the items stay as they are.  In NotificationsFeed the same
    change retires every subscription, issues the primary one again with the
    new limit and also calls [loadNotes], whose result replaces the items. *)
Theorem C3_page_growth
    (i : ReactionsFeed.Instance) (j : NotificationsFeed.Instance)
    (mentions : Outcome (list Note.t)) :
  0 < State.pageSize (ReactionsFeed.state i) ->
  0 < State.pageSize (NotificationsFeed.state j) ->
  let p := State.pageSize (ReactionsFeed.state i) in
  let t := ReactionsFeed.react i (ReactionsFeed.Scrolled true) in
  let i' := ReactionsFeed.step i (ReactionsFeed.Scrolled true) in
  let q := State.pageSize (NotificationsFeed.state j) in
  let t' := NotificationsFeed.react j (NotificationsFeed.Scrolled true mentions) in
  let j' := NotificationsFeed.step j (NotificationsFeed.Scrolled true mentions) in
  (State.pageSize (ReactionsFeed.state i') = p + ReactionsFeed.initialPageSize /\
   notesWrites t = [] /\
   State.notes (ReactionsFeed.state i') = State.notes (ReactionsFeed.state i) /\
   (defined (ReactionsFeed.ctxDatabase i) = true ->
    truthy (ReactionsFeed.ctxPublicKey i) = true ->
    defined (ReactionsFeed.ctxRelayPool i) = true ->
    issued "homepage-contacts-main" t
    = [[ {| ReactionsFeed.kinds := [ReactionsFeed.Reaction];
            ReactionsFeed.authors := Some [ReactionsFeed.ctxPublicKey i ?? ""];
            ReactionsFeed.ids := None;
            ReactionsFeed.tag_e := None;
            ReactionsFeed.since := None;
            ReactionsFeed.limit := Some (p + ReactionsFeed.initialPageSize) |} ]]))
  /\
  (State.pageSize (NotificationsFeed.state j')
   = q + NotificationsFeed.initialPageSize /\
   (defined (NotificationsFeed.ctxDatabase j) = true ->
    truthy (NotificationsFeed.ctxPublicKey j) = true ->
    defined (NotificationsFeed.ctxRelayPool j) = true ->
    poolCalls (firstn 3 t')
    = [ UnsubscribeAll;
        Subscribe "mentions-user"
          [ {| NotificationsFeed.kinds := [NotificationsFeed.textNote];
               NotificationsFeed.authors := None;
               NotificationsFeed.tag_e := None;
               NotificationsFeed.tag_p := Some [NotificationsFeed.ctxPublicKey j ?? ""];
               NotificationsFeed.limit := Some (q + NotificationsFeed.initialPageSize) |};
            {| NotificationsFeed.kinds := [NotificationsFeed.textNote];
               NotificationsFeed.authors := None;
               NotificationsFeed.tag_e := Some [NotificationsFeed.ctxPublicKey j ?? ""];
               NotificationsFeed.tag_p := None;
               NotificationsFeed.limit := Some (q + NotificationsFeed.initialPageSize) |} ] ] /\
    notesWrites t'
    = match mentions with Resolved notes => [notes] | Rejected => [] end)).
Proof.
  intros Hp Hq p t i' q t' j'. split.
  - assert (Ht : notesWrites t = []).
    { subst t. rewrite ReactionFacts.react_scrolled by exact Hp. simpl.
      rewrite ReactionFacts.subscribeNotes_trace.
      split_ifs; reflexivity. }
    repeat split.
    + subst i'. now rewrite ReactionFacts.step_pageSize.
    + exact Ht.
    + subst i'. unfold ReactionsFeed.step, ReactionsFeed.withState; simpl.
      now apply commit_notes.
    + intros Hdb Hpk Hpool. subst t.
      rewrite ReactionFacts.react_scrolled by exact Hp.
      rewrite ReactionFacts.subscribeNotes_trace. simpl.
      rewrite Hdb, Hpk, Hpool. reflexivity.
  - split.
    + subst j'. now rewrite NotificationFacts.mentions_step_pageSize.
    + intros Hdb Hpk Hpool. subst t'.
      rewrite NotificationFacts.mentions_react_scrolled.
      rewrite NotificationFacts.pageSizeEffect_trace.
      rewrite NotificationFacts.mentions_subscribeNotes_trace. simpl.
      rewrite Hdb, Hpk, Hpool. simpl.
      unfold NotificationsFeed.initialPageSize.
      replace (10 <? State.pageSize (NotificationsFeed.state j) + 10) with true
        by (symmetry; apply Z.ltb_lt; lia).
      simpl. split; [reflexivity|].
      destruct mentions as [notes|].
      * apply NotificationFacts.loadNotes_writes; assumption.
      * now rewrite NotificationFacts.mentions_loadNotes_rejected.
Qed.

Lemma C3_page_growth_witness :
  State.pageSize (ReactionsFeed.state
                    (ReactionsFeed.step Sample.reactionsFeed
                       (ReactionsFeed.Scrolled true))) = 20 /\
  notesWrites (ReactionsFeed.react Sample.reactionsFeed
                 (ReactionsFeed.Scrolled true)) = [].
Proof.
  destruct (C3_page_growth Sample.reactionsFeed Sample.notificationsFeed
              (Resolved [Sample.alice1])) as [(Hp & Hn & _) _];
    [reflexivity | reflexivity |].
  split; [exact Hp | exact Hn].
Defined.

(** ** The refresh indicator *)

(** C4 as stated fails.  [loadNotes] of ReactionsFeed never calls
    [setRefreshing]: a component mounted before the viewer signed in and
    refreshed once keeps the indicator on through a later load that does
    replace the items.  And in NotificationsFeed a rejected query runs no
    callback, so the indicator, on since the first render, stays on. *)
Lemma C4_load_leaves_loading_on :
  let es := [ ReactionsFeed.Refreshed;
              ReactionsFeed.ContextChanged (Some QuickSQLiteConnection)
                (Some "A") (Some RelayPoolRef);
              ReactionsFeed.EventArrived (Sample.store [Sample.alice1]) ] in
  let i := ReactionsFeed.run Sample.signedOut es in
  let j := NotificationsFeed.step Sample.notificationsFeed
             (NotificationsFeed.EventArrived Rejected) in
  (State.notes (ReactionsFeed.state i) = [Sample.alice1] /\
   State.refreshing (ReactionsFeed.state i) = true) /\
  State.refreshing (NotificationsFeed.state j) = true.
Proof. cbv zeta. repeat split; reflexivity. Qed.

(** C4, amended.  In NotificationsFeed, a [loadNotes] whose guards hold and
    whose Store query resolves replaces the items by the result and then
    sets [refreshing] to false, whatever the number of notes; when the query
    is rejected neither the items nor [refreshing] change.  In ReactionsFeed
    [loadNotes] never writes [refreshing]: there the indicator is reset by
    [subscribeNotes]. *)
Theorem C4_loading_reset
    (cl' : NotificationsFeed.Closure) (cl : ReactionsFeed.Closure)
    (s : State.t) (notes : list Note.t)
    (reacted : Outcome (list Note.t))
    (lastReaction : Outcome (option Reaction.t))
    (lastReply : Outcome (option Note.t)) :
  defined (NotificationsFeed.database cl') = true ->
  truthy (NotificationsFeed.publicKey cl') = true ->
  let s' := commit s (trace (NotificationsFeed.loadNotes cl' (Resolved notes))) in
  (State.refreshing s' = false /\ State.notes s' = notes) /\
  commit s (trace (NotificationsFeed.loadNotes cl' Rejected)) = s /\
  (refreshingWrites
     (trace (ReactionsFeed.loadNotes cl reacted lastReaction lastReply)) = [] /\
   State.refreshing
     (commit s (trace (ReactionsFeed.loadNotes cl reacted lastReaction lastReply)))
   = State.refreshing s).
Proof.
  intros Hdb Hpk s'. repeat split.
  - subst s'. rewrite NotificationFacts.mentions_loadNotes_resolved, Hdb, Hpk.
    unfold NotificationsFeed.loadNotes_then.
    destruct (NotificationsFeed.relayPool cl') as [[]|]; reflexivity.
  - subst s'. rewrite NotificationFacts.mentions_loadNotes_resolved, Hdb, Hpk.
    unfold NotificationsFeed.loadNotes_then.
    destruct (NotificationsFeed.relayPool cl') as [[]|]; reflexivity.
  - now rewrite NotificationFacts.mentions_loadNotes_rejected.
  - apply LoadFacts.loadNotes_refreshingWrites.
  - apply commit_refreshing, LoadFacts.loadNotes_refreshingWrites.
Qed.

Lemma C4_loading_reset_witness :
  let s := NotificationsFeed.state Sample.notificationsFeed in
  let s' := commit s (trace (NotificationsFeed.loadNotes (Sample.notifications 10)
                               (Resolved []))) in
  State.refreshing s = true /\ State.refreshing s' = false /\ State.notes s' = [].
Proof.
  cbv zeta. split; [reflexivity|].
  apply (C4_loading_reset (Sample.notifications 10) (Sample.reactions 10)
           (NotificationsFeed.state Sample.notificationsFeed) []
           Rejected Rejected Rejected); reflexivity.
Defined.

(** ** Refreshing *)

Module RefreshFacts.

(** Whatever happened since the component was mounted, [onRefresh] of
    ReactionsFeed subscribes with the limit of the first render. *)
Lemma reactions_refresh_limit db pk pool es :
  defined db = true -> truthy pk = true -> defined pool = true ->
  issued "homepage-contacts-main"
    (ReactionsFeed.react (ReactionsFeed.run (ReactionsFeed.mount db pk pool) es)
       ReactionsFeed.Refreshed)
  = [[ {| ReactionsFeed.kinds := [ReactionsFeed.Reaction];
          ReactionsFeed.authors := Some [pk ?? ""];
          ReactionsFeed.ids := None;
          ReactionsFeed.tag_e := None;
          ReactionsFeed.since := None;
          ReactionsFeed.limit := Some ReactionsFeed.initialPageSize |} ]].
Proof.
  intros Hdb Hpk Hpool. simpl ReactionsFeed.react.
  rewrite ReactionFacts.first_run. simpl ReactionsFeed.first.
  rewrite ReactionFacts.onRefresh_trace, ReactionFacts.unsubscribe_trace,
    ReactionFacts.subscribeNotes_trace.
  simpl. rewrite Hdb, Hpk, Hpool. reflexivity.
Qed.

(** [onRefresh] leaves the page size alone. *)
Lemma reactions_refresh_pageSize i :
  State.pageSize (ReactionsFeed.state (ReactionsFeed.step i ReactionsFeed.Refreshed))
  = State.pageSize (ReactionsFeed.state i).
Proof. now rewrite ReactionFacts.step_pageSize. Qed.

End RefreshFacts.

(** C5: the code departs from the claim.  After one page growth the page
    size is 20, and it is still 20 after a refresh; [onRefresh] sets
    [refreshing], retires the primary channel by name and issues it again,
    but with limit 10: the function memoised by [useCallback(..., [])] is
    the first render's and reads the first render's [pageSize].  The same
    holds in NotificationsFeed, which retires with [unsubscribeAll]. *)
Theorem C5_refresh_reissues_at_first_page_size :
  let i := ReactionsFeed.run Sample.reactionsFeed [ReactionsFeed.Scrolled true] in
  let j := NotificationsFeed.run Sample.notificationsFeed
             [NotificationsFeed.Scrolled true (Resolved [])] in
  (State.pageSize (ReactionsFeed.state i) = 20 /\
   ReactionsFeed.react i ReactionsFeed.Refreshed
   = [ SetRefreshing true;
       Pool (Unsubscribe [ "homepage-contacts-main";
                           "homepage-contacts-meta";
                           "homepage-contacts-replies";
                           "homepage-contacts-reactions";
                           "homepage-contacts-repost" ]);
       Pool (Subscribe "homepage-contacts-main"
               [ {| ReactionsFeed.kinds := [ReactionsFeed.Reaction];
                    ReactionsFeed.authors := Some ["A"];
                    ReactionsFeed.ids := None;
                    ReactionsFeed.tag_e := None;
                    ReactionsFeed.since := None;
                    ReactionsFeed.limit := Some 10 |} ]);
       SetRefreshing false ] /\
   State.pageSize
     (ReactionsFeed.state (ReactionsFeed.step i ReactionsFeed.Refreshed)) = 20)
  /\
  (State.pageSize (NotificationsFeed.state j) = 20 /\
   firstn 3 (NotificationsFeed.react j (NotificationsFeed.Refreshed Rejected))
   = [ SetRefreshing true;
       Pool UnsubscribeAll;
       Pool (Subscribe "mentions-user"
               [ {| NotificationsFeed.kinds := [NotificationsFeed.textNote];
                    NotificationsFeed.authors := None;
                    NotificationsFeed.tag_e := None;
                    NotificationsFeed.tag_p := Some ["A"];
                    NotificationsFeed.limit := Some 10 |};
                 {| NotificationsFeed.kinds := [NotificationsFeed.textNote];
                    NotificationsFeed.authors := None;
                    NotificationsFeed.tag_e := Some ["A"];
                    NotificationsFeed.tag_p := None;
                    NotificationsFeed.limit := Some 10 |} ]) ]).
Proof. cbv zeta. repeat split; reflexivity. Qed.

(** ** The authors asked for *)

(** C6 as stated fails: the authors sent with the metadata subscription are
    not deduplicated, and they are not always author ids of the notes.  Two
    notes of one author send that author twice; a note without [pubkey]
    sends the empty string, which is the author id of no note. *)
Lemma C6_authors_not_deduplicated :
  let sent (notes : list Note.t) :=
    map ReactionsFeed.authors
      (List.concat
         (issued "homepage-contacts-meta"
            (trace (ReactionsFeed.loadNotes (Sample.reactions 10)
                      (Resolved notes) (Resolved None) (Resolved None))))) in
  (sent [Sample.alice1; Sample.alice2] = [Some ["alice"; "alice"]] /\
   ~ NoDup ["alice"; "alice"]) /\
  (sent [Sample.anonymous] = [Some [""]] /\
   ~ exists note, In note [Sample.anonymous] /\ Note.pubkey note = Some "").
Proof.
  cbv zeta. split; split; try reflexivity.
  - intros H. inversion H as [|a l Hin _]; subst. apply Hin. now left.
  - intros (note & [<-|[]] & H). discriminate.
Qed.

(** C6, amended.  For a result of N > 0 notes, with the database, the
    viewer's key and the relay pool there, [loadNotes] of ReactionsFeed
    issues one metadata subscription whose [authors] is the list of the
    notes' [pubkey]s in the order of the notes, an undefined one replaced by
    the empty string and nothing removed: it has the members of the set of
    the notes' authors, with repetitions.  NotificationsFeed sends the
    [pubkey]s as they are, in the second filter of "mentions-answers". *)
Theorem C6_metadata_authors
    (cl : ReactionsFeed.Closure) (cl' : NotificationsFeed.Closure)
    (notes : list Note.t)
    (lastReaction : Outcome (option Reaction.t))
    (lastReply : Outcome (option Note.t)) :
  (0 < List.length notes)%nat ->
  defined (ReactionsFeed.database cl) = true ->
  truthy (ReactionsFeed.publicKey cl) = true ->
  defined (ReactionsFeed.relayPool cl) = true ->
  defined (NotificationsFeed.database cl') = true ->
  truthy (NotificationsFeed.publicKey cl') = true ->
  defined (NotificationsFeed.relayPool cl') = true ->
  let authorsOf := map (fun note => Note.pubkey note ?? "") notes in
  issued "homepage-contacts-meta"
    (trace (ReactionsFeed.loadNotes cl (Resolved notes) lastReaction lastReply))
  = [[ {| ReactionsFeed.kinds := [ReactionsFeed.Metadata];
          ReactionsFeed.authors := Some authorsOf;
          ReactionsFeed.ids := None;
          ReactionsFeed.tag_e := None;
          ReactionsFeed.since := None;
          ReactionsFeed.limit := None |} ]] /\
  List.length authorsOf = List.length notes /\
  (forall a, In a authorsOf <->
             exists note, In note notes /\ Note.pubkey note ?? "" = a) /\
  map (map NotificationsFeed.authors)
    (issued "mentions-answers"
       (trace (NotificationsFeed.loadNotes cl' (Resolved notes))))
  = [[None; Some (map Note.pubkey notes)]].
Proof.
  intros Hn Hdb Hpk Hpool Hdb' Hpk' Hpool' authorsOf. repeat split.
  - rewrite LoadFacts.loadNotes_resolved, Hdb, Hpk.
    unfold ReactionsFeed.loadNotes_then; cbv zeta.
    rewrite filter_map_nonempty, (nonempty_ltb _ _ Hn).
    destruct (ReactionsFeed.relayPool cl) as [[]|]; [|discriminate].
    destruct (existsb _ notes), lastReaction, lastReply; reflexivity.
  - apply length_map.
  - intros Ha. apply in_map_iff in Ha. destruct Ha as (note & Heq & Hin).
    now exists note.
  - intros (note & Hin & Heq). apply in_map_iff. now exists note.
  - rewrite NotificationFacts.mentions_loadNotes_resolved, Hdb', Hpk'.
    unfold NotificationsFeed.loadNotes_then.
    destruct (NotificationsFeed.relayPool cl') as [[]|]; [|discriminate].
    reflexivity.
Qed.

Lemma C6_metadata_authors_witness :
  map ReactionsFeed.authors
    (List.concat
       (issued "homepage-contacts-meta"
          (trace (ReactionsFeed.loadNotes (Sample.reactions 10)
                    (Resolved [Sample.alice1; Sample.anonymous; Sample.bobRepost])
                    (Resolved None) (Resolved None)))))
  = [Some ["alice"; ""; "bob"]].
Proof.
  assert (Hn : (0 < List.length
                       [Sample.alice1; Sample.anonymous; Sample.bobRepost])%nat)
    by (simpl; lia).
  destruct (C6_metadata_authors (Sample.reactions 10) (Sample.notifications 10)
              [Sample.alice1; Sample.anonymous; Sample.bobRepost]
              (Resolved None) (Resolved None)
              Hn eq_refl eq_refl eq_refl eq_refl eq_refl eq_refl) as (H & _).
  rewrite H. reflexivity.
Defined.

(** ** Issuing the primary channel again *)

(** C7 as stated fails: when the page grows, ReactionsFeed issues
    "homepage-contacts-main" a second time and no call retires it first. *)
Lemma C7_growth_reissues_without_retiring :
  let mounted := ReactionsFeed.Mounted (Sample.store []) (Sample.store []) in
  let i := ReactionsFeed.step Sample.reactionsFeed mounted in
  let t0 := ReactionsFeed.react Sample.reactionsFeed mounted in
  let t1 := ReactionsFeed.react i (ReactionsFeed.Scrolled true) in
  subscribed t0 = ["homepage-contacts-main"] /\
  map (@addressed _) (poolCalls t1) = [Some ["homepage-contacts-main"]] /\
  subscribed t1 = ["homepage-contacts-main"] /\
  retiresFirst "homepage-contacts-main" false (poolCalls (t0 ++ t1)) = false.
Proof. cbv zeta. repeat split; reflexivity. Qed.

(** C7, amended.  [onRefresh] of ReactionsFeed retires the primary channel
    by name before it issues it again, and every reaction of
    NotificationsFeed that issues "mentions-user" (first render, change of
    viewer or pool, refresh, page growth) retires all subscriptions first.
    On page growth ReactionsFeed makes no retiring call at all: its only
    pool call is the new issue of "homepage-contacts-main", which relies on
    the pool to supersede the subscription of that name.  With a pool that
    does so, as the spec's data model says, no trace of pool calls leaves
    two live subscriptions under one name. *)
Theorem C7_retire_then_reissue
    (cl : ReactionsFeed.Closure) (i : ReactionsFeed.Instance)
    (j : NotificationsFeed.Instance) (e : NotificationsFeed.Event)
    (live : bool)
    (p : Live ReactionsFeed.RelayFilters) (t : list ReactionsFeed.Act) :
  exclusive p ->
  retiresFirst "homepage-contacts-main" live
    (poolCalls (trace (ReactionsFeed.onRefresh cl))) = true /\
  retiresFirst "mentions-user" live (poolCalls (NotificationsFeed.react j e))
  = true /\
  (forall c, In c (poolCalls (ReactionsFeed.react i (ReactionsFeed.Scrolled true))) ->
             exists filters, c = Subscribe "homepage-contacts-main" filters) /\
  exclusive (poolRun p t).
Proof.
  intros Hp. repeat split.
  - apply ReactionFacts.onRefresh_retires.
  - apply NotificationFacts.mentions_react_retires.
  - apply ReactionFacts.react_scrolled_calls.
  - now apply poolRun_exclusive.
Qed.

Lemma C7_retire_then_reissue_witness :
  let mounted := ReactionsFeed.Mounted (Sample.store []) (Sample.store []) in
  let i := ReactionsFeed.step Sample.reactionsFeed mounted in
  let t := ReactionsFeed.react Sample.reactionsFeed mounted
           ++ ReactionsFeed.react i (ReactionsFeed.Scrolled true)
           ++ ReactionsFeed.react i ReactionsFeed.Refreshed in
  exclusive (poolRun [] t).
Proof.
  cbv zeta.
  apply (C7_retire_then_reissue (Sample.reactions 10) Sample.reactionsFeed
           Sample.notificationsFeed (NotificationsFeed.Refreshed Rejected)
           true []).
  constructor.
Defined.

(** ** Other feeds' subscriptions *)

(** C8 as stated fails: NotificationsFeed retires with [unsubscribeAll],
    which is addressed to no channel name.  A subscription another feed holds
    under "homepage-contacts-main" is gone after NotificationsFeed's first
    effects. *)
Lemma C8_unsubscribeAll_reaches_other_feeds :
  let t := NotificationsFeed.react Sample.notificationsFeed
             (NotificationsFeed.Mounted Rejected Rejected Rejected) in
  let p : Live NotificationsFeed.RelayFilters :=
    [("homepage-contacts-main", [])] in
  map (@addressed _) (poolCalls t) = [None; Some ["mentions-user"]] /\
  forallb (addressedWithin NotificationsFeed.ownName) (poolCalls t) = false /\
  liveUnder "homepage-contacts-main" p = [[]] /\
  liveUnder "homepage-contacts-main" (poolRun p t) = [].
Proof. cbv zeta. repeat split; reflexivity. Qed.

(** C8, amended.  Every pool call of ReactionsFeed, whatever the event, is
    addressed to some of its five channel names, all of the form
    "homepage-contacts-*"; so the subscriptions live under any other name
    are the same before and after.  NotificationsFeed issues subscriptions
    under "mentions-user" and "mentions-answers" only, but it retires with
    [unsubscribeAll], which is not confined to its own names. *)
Theorem C8_named_pool_calls
    (i : ReactionsFeed.Instance) (e : ReactionsFeed.Event)
    (j : NotificationsFeed.Instance) (e' : NotificationsFeed.Event)
    (p : Live ReactionsFeed.RelayFilters) :
  forallb (addressedWithin ReactionsFeed.ownName)
    (poolCalls (ReactionsFeed.react i e)) = true /\
  (forall n, ReactionsFeed.ownName n = true -> ReactionsFeed.namespaced n = true) /\
  (forall n, ReactionsFeed.ownName n = false ->
             liveUnder n (poolRun p (ReactionsFeed.react i e)) = liveUnder n p) /\
  forallb NotificationsFeed.ownName (subscribed (NotificationsFeed.react j e'))
  = true.
Proof.
  repeat split.
  - apply ReactionFacts.react_own.
  - apply ReactionFacts.ownName_namespaced.
  - intros n Hn. apply (poolRun_frame _ ReactionsFeed.ownName); [|exact Hn].
    apply ReactionFacts.react_own.
  - apply NotificationFacts.mentions_react_subscribes.
Qed.

(** ** The guards on the database and the viewer's key *)

Module GuardFacts.

Lemma no_key (db : option Database) (pk : JsString) :
  truthy pk = false -> defined db && truthy pk = false.
Proof. intros ->. apply andb_false_r. Qed.

Lemma no_database (db : option Database) (pk : JsString) :
  defined db = false -> defined db && truthy pk = false.
Proof. now intros ->. Qed.

Lemma quiet_retire (Filter : Type) (b : bool) :
  quiet (if b then [Pool (@UnsubscribeAll Filter)] else []).
Proof. destruct b; repeat split. Qed.

Lemma quiet_app (Filter : Type) (t u : list (Action Filter)) :
  quiet t -> quiet u -> quiet (t ++ u).
Proof.
  unfold quiet. intros (H1 & H2 & H3) (H4 & H5 & H6).
  rewrite subscribed_app, notesWrites_app, refreshingWrites_app.
  now rewrite H1, H2, H3, H4, H5, H6.
Qed.

(** *** ReactionsFeed *)

Lemma reactions_subscribe cl :
  defined (ReactionsFeed.database cl) && truthy (ReactionsFeed.publicKey cl) = false ->
  trace (ReactionsFeed.subscribeNotes cl) = [].
Proof. intros H. now rewrite ReactionFacts.subscribeNotes_trace, H. Qed.

Lemma reactions_load cl reacted lastReaction lastReply :
  defined (ReactionsFeed.database cl) && truthy (ReactionsFeed.publicKey cl) = false ->
  trace (ReactionsFeed.loadNotes cl reacted lastReaction lastReply) = [].
Proof. intros H. unfold ReactionsFeed.loadNotes. now rewrite H. Qed.

Lemma reactions_event i s :
  defined (ReactionsFeed.ctxDatabase i) && truthy (ReactionsFeed.ctxPublicKey i) = false ->
  ReactionsFeed.react i (ReactionsFeed.EventArrived s) = [].
Proof.
  intros H. cbn [ReactionsFeed.react].
  unfold ReactionsFeed.eventEffect, when.
  case_ifs; [|reflexivity].
  apply reactions_load. exact H.
Qed.

Lemma reactions_scroll i nearEnd :
  defined (ReactionsFeed.ctxDatabase i) && truthy (ReactionsFeed.ctxPublicKey i) = false ->
  ReactionsFeed.react i (ReactionsFeed.Scrolled nearEnd)
  = if nearEnd
    then [SetPageSize (State.pageSize (ReactionsFeed.state i)
                       + ReactionsFeed.initialPageSize)]
    else [].
Proof.
  intros H. destruct nearEnd; [|apply ReactionFacts.react_scrolled_elsewhere].
  destruct i as [f db pk pool [ns p r]].
  cbn [ReactionsFeed.ctxDatabase ReactionsFeed.ctxPublicKey] in H.
  unfold ReactionsFeed.react, ReactionsFeed.onScroll, ReactionsFeed.render,
    ReactionsFeed.withState, ReactionsFeed.pageSizeEffect.
  cbn [when emit trace fst commit fold_left setState ReactionsFeed.state
       State.pageSize ReactionsFeed.ctxDatabase ReactionsFeed.ctxPublicKey
       ReactionsFeed.ctxRelayPool ReactionsFeed.pageSize].
  destruct (_ =? _); [reflexivity|].
  destruct (_ <? _); [|reflexivity].
  unfold when. now rewrite reactions_subscribe.
Qed.

Lemma reactions_mount i s1 s2 :
  defined (ReactionsFeed.database (ReactionsFeed.first i))
  && truthy (ReactionsFeed.publicKey (ReactionsFeed.first i)) = false ->
  ReactionsFeed.react i (ReactionsFeed.Mounted s1 s2)
  = trace (ReactionsFeed.unsubscribe (ReactionsFeed.first i)).
Proof.
  intros H. simpl. rewrite ReactionFacts.mountEffect_trace.
  rewrite reactions_subscribe, reactions_load by exact H.
  unfold ReactionsFeed.eventEffect, ReactionsFeed.pageSizeEffect, when.
  case_ifs; rewrite ?reactions_subscribe, ?reactions_load by exact H;
    now rewrite !app_nil_r.
Qed.

Lemma reactions_refresh i :
  defined (ReactionsFeed.database (ReactionsFeed.first i))
  && truthy (ReactionsFeed.publicKey (ReactionsFeed.first i)) = false ->
  ReactionsFeed.react i ReactionsFeed.Refreshed
  = SetRefreshing true
    :: trace (ReactionsFeed.unsubscribe (ReactionsFeed.first i)).
Proof.
  intros H. simpl. rewrite ReactionFacts.onRefresh_trace.
  now rewrite reactions_subscribe, app_nil_r.
Qed.

(** [onRefresh] goes by the first render, whatever the context is now. *)
Lemma reactions_refresh_ready i :
  defined (ReactionsFeed.database (ReactionsFeed.first i)) = true ->
  truthy (ReactionsFeed.publicKey (ReactionsFeed.first i)) = true ->
  defined (ReactionsFeed.relayPool (ReactionsFeed.first i)) = true ->
  subscribed (ReactionsFeed.react i ReactionsFeed.Refreshed)
  = ["homepage-contacts-main"] /\
  refreshingWrites (ReactionsFeed.react i ReactionsFeed.Refreshed)
  = [true; false].
Proof.
  intros Hdb Hpk Hpool. simpl.
  rewrite ReactionFacts.onRefresh_trace, ReactionFacts.unsubscribe_trace,
    ReactionFacts.subscribeNotes_trace.
  rewrite Hdb, Hpk, Hpool. split; reflexivity.
Qed.

(** *** NotificationsFeed *)

Lemma mentions_subscribe cl :
  defined (NotificationsFeed.database cl)
  && truthy (NotificationsFeed.publicKey cl) = false ->
  trace (NotificationsFeed.subscribeNotes cl) = [].
Proof.
  intros H. now rewrite NotificationFacts.mentions_subscribeNotes_trace, H.
Qed.

Lemma mentions_load cl mentions :
  defined (NotificationsFeed.database cl)
  && truthy (NotificationsFeed.publicKey cl) = false ->
  trace (NotificationsFeed.loadNotes cl mentions) = [].
Proof.
  intros H. now rewrite NotificationFacts.mentions_loadNotes_trace, H.
Qed.

Lemma mentions_restart cl mentions :
  defined (NotificationsFeed.database cl)
  && truthy (NotificationsFeed.publicKey cl) = false ->
  trace (NotificationsFeed.restart cl mentions)
  = if defined (NotificationsFeed.relayPool cl) then [Pool UnsubscribeAll] else [].
Proof.
  intros H. rewrite NotificationFacts.restart_trace.
  rewrite mentions_subscribe, mentions_load by exact H.
  destruct (defined (NotificationsFeed.relayPool cl)),
    (truthy (NotificationsFeed.publicKey cl)); reflexivity.
Qed.

Lemma mentions_pageSizeEffect cl mentions :
  defined (NotificationsFeed.database cl)
  && truthy (NotificationsFeed.publicKey cl) = false ->
  trace (NotificationsFeed.pageSizeEffect cl mentions)
  = if NotificationsFeed.initialPageSize <? NotificationsFeed.pageSize cl
    then (if defined (NotificationsFeed.relayPool cl)
          then [Pool UnsubscribeAll] else [])
    else [].
Proof.
  intros H. rewrite NotificationFacts.pageSizeEffect_trace.
  rewrite mentions_subscribe, mentions_load by exact H.
  now rewrite !app_nil_r.
Qed.

Lemma mentions_event j mentions :
  defined (NotificationsFeed.ctxDatabase j)
  && truthy (NotificationsFeed.ctxPublicKey j) = false ->
  NotificationsFeed.react j (NotificationsFeed.EventArrived mentions) = [].
Proof. intros H. simpl. now apply mentions_load. Qed.

Lemma mentions_scroll j nearEnd mentions :
  defined (NotificationsFeed.ctxDatabase j)
  && truthy (NotificationsFeed.ctxPublicKey j) = false ->
  quiet (NotificationsFeed.react j (NotificationsFeed.Scrolled nearEnd mentions)).
Proof.
  intros H. destruct nearEnd.
  - rewrite NotificationFacts.mentions_react_scrolled.
    rewrite mentions_pageSizeEffect by exact H.
    apply (quiet_app _ [SetPageSize _]); [repeat split|].
    destruct (_ <? _); [apply quiet_retire|repeat split].
  - simpl. rewrite Z.eqb_refl. repeat split.
Qed.

Lemma mentions_context j db pk pool mentions :
  defined db && truthy pk = false ->
  quiet (NotificationsFeed.react j
           (NotificationsFeed.ContextChanged db pk pool mentions)).
Proof.
  intros H. simpl. destruct (NotificationsFeed.sameContext j pk pool);
    [repeat split|].
  unfold NotificationsFeed.contextEffect.
  rewrite mentions_restart by exact H. apply quiet_retire.
Qed.

Lemma mentions_mount j m1 m2 m3 :
  defined (NotificationsFeed.database (NotificationsFeed.first j))
  && truthy (NotificationsFeed.publicKey (NotificationsFeed.first j)) = false ->
  quiet (NotificationsFeed.react j (NotificationsFeed.Mounted m1 m2 m3)).
Proof.
  intros H. simpl.
  unfold NotificationsFeed.contextEffect, NotificationsFeed.eventEffect.
  rewrite mentions_restart, mentions_load, mentions_pageSizeEffect by exact H.
  apply quiet_app; [apply quiet_retire|]. simpl.
  destruct (_ <? _); [apply quiet_retire|repeat split].
Qed.

Lemma mentions_refresh j mentions :
  defined (NotificationsFeed.database (NotificationsFeed.first j))
  && truthy (NotificationsFeed.publicKey (NotificationsFeed.first j)) = false ->
  NotificationsFeed.react j (NotificationsFeed.Refreshed mentions)
  = SetRefreshing true
    :: (if defined (NotificationsFeed.relayPool (NotificationsFeed.first j))
        then [Pool UnsubscribeAll] else []).
Proof.
  intros H. simpl. rewrite NotificationFacts.onRefresh_restart.
  now rewrite mentions_restart.
Qed.

Lemma mentions_refresh_ready j notes :
  defined (NotificationsFeed.database (NotificationsFeed.first j)) = true ->
  truthy (NotificationsFeed.publicKey (NotificationsFeed.first j)) = true ->
  defined (NotificationsFeed.relayPool (NotificationsFeed.first j)) = true ->
  subscribed (NotificationsFeed.react j (NotificationsFeed.Refreshed (Resolved notes)))
  = ["mentions-user"; "mentions-answers"] /\
  notesWrites (NotificationsFeed.react j (NotificationsFeed.Refreshed (Resolved notes)))
  = [notes] /\
  refreshingWrites
    (NotificationsFeed.react j (NotificationsFeed.Refreshed (Resolved notes)))
  = [true; false].
Proof.
  intros Hdb Hpk Hpool. simpl. NotificationFacts.mentions_traces.
  rewrite Hdb, Hpk, Hpool. repeat split; reflexivity.
Qed.

End GuardFacts.

(** ** Absent identifiers *)




(** ** The page size *)

Module PageFacts.

(** In ReactionsFeed every event either leaves the page size as it is or,
    when it is a scroll to the end of the list, adds [initialPageSize]. *)
Lemma reactions_nonDecreasing es :
  forall i,
    nonDecreasing (State.pageSize (ReactionsFeed.state i))
      (ReactionsFeed.pageSizes i es).
Proof.
  induction es as [|e es IH]; intros i; simpl; [exact I|].
  split; [|apply IH].
  rewrite ReactionFacts.step_pageSize. unfold ReactionsFeed.initialPageSize.
  destruct e as [| [|] | | |]; lia.
Qed.

Lemma mentions_nonDecreasing es :
  forall j,
    nonDecreasing (State.pageSize (NotificationsFeed.state j))
      (NotificationsFeed.pageSizes j es).
Proof.
  induction es as [|e es IH]; intros j; simpl; [exact I|].
  split; [|apply IH].
  rewrite NotificationFacts.mentions_step_pageSize.
  unfold NotificationsFeed.initialPageSize.
  destruct e as [| [|] | | |]; lia.
Qed.

Lemma reactions_growsBy n :
  forall i,
    growsBy ReactionsFeed.initialPageSize (State.pageSize (ReactionsFeed.state i))
      (ReactionsFeed.pageSizes i (repeat (ReactionsFeed.Scrolled true) n)).
Proof.
  induction n as [|n IH]; intros i;
    cbn [repeat ReactionsFeed.pageSizes growsBy]; [exact I|].
  split; [|apply IH].
  now rewrite ReactionFacts.step_pageSize.
Qed.

Lemma mentions_growsBy ms :
  forall j,
    growsBy NotificationsFeed.initialPageSize
      (State.pageSize (NotificationsFeed.state j))
      (NotificationsFeed.pageSizes j (map (NotificationsFeed.Scrolled true) ms)).
Proof.
  induction ms as [|m ms IH]; intros j;
    cbn [map NotificationsFeed.pageSizes growsBy]; [exact I|].
  split; [|apply IH].
  now rewrite NotificationFacts.mentions_step_pageSize.
Qed.

End PageFacts.

(** C10.  Along any sequence of scrolls to the end of the list, in either
    component, each value of [pageSize] is the one before it plus
    [initialPageSize], and the sequence never decreases.  ([pageSize] is a
    JavaScript number; it is taken as an integer, which it is for as long as
    the sums are exact.) *)
Theorem C10_page_size_steps
    (i : ReactionsFeed.Instance) (j : NotificationsFeed.Instance)
    (n : nat) (ms : list (Outcome (list Note.t))) :
  let ps := ReactionsFeed.pageSizes i (repeat (ReactionsFeed.Scrolled true) n) in
  let qs := NotificationsFeed.pageSizes j
              (map (NotificationsFeed.Scrolled true) ms) in
  (growsBy ReactionsFeed.initialPageSize
     (State.pageSize (ReactionsFeed.state i)) ps /\
   nonDecreasing (State.pageSize (ReactionsFeed.state i)) ps) /\
  (growsBy NotificationsFeed.initialPageSize
     (State.pageSize (NotificationsFeed.state j)) qs /\
   nonDecreasing (State.pageSize (NotificationsFeed.state j)) qs).
Proof.
  cbv zeta. repeat split.
  - apply PageFacts.reactions_growsBy.
  - apply PageFacts.reactions_nonDecreasing.
  - apply PageFacts.mentions_growsBy.
  - apply PageFacts.mentions_nonDecreasing.
Qed.

(** * Further properties of the components *)

(** ** What a load sends *)

Module EnrichmentFacts.
Import ReactionsFeed.

(** A truthy [repost_id] is a defined, non-empty string. *)
Lemma truthy_inv (s : JsString) :
  truthy s = true -> exists r, s = Some r /\ r <> "".
Proof.
  destruct s as [r|]; simpl; [|discriminate].
  intros H. exists r. split; [reflexivity|].
  intros ->. discriminate.
Qed.

Lemma repostIdsOf_spec notes r :
  In r (repostIdsOf notes) <->
  exists note, In note notes /\ Note.repost_id note = Some r /\ r <> "".
Proof.
  unfold repostIdsOf. rewrite in_map_iff. split.
  - intros (note & Hr & Hin). apply filter_In in Hin. destruct Hin as [Hin Ht].
    apply truthy_inv in Ht. destruct Ht as (r' & Heq & Hne).
    rewrite Heq in Hr. simpl in Hr. subst r'. eauto.
  - intros (note & Hin & Heq & Hne). exists note. split.
    + now rewrite Heq.
    + apply filter_In. split; [exact Hin|]. rewrite Heq. simpl.
      destruct (String.eqb_spec r ""); [contradiction|reflexivity].
Qed.

Lemma repostIdsOf_length notes :
  (List.length (repostIdsOf notes) <= List.length notes)%nat.
Proof. unfold repostIdsOf. rewrite length_map. apply filter_length_le. Qed.

(** The repost subscription of a load, in closed form. *)
Lemma loadNotes_repost cl notes lastReaction lastReply :
  issued "homepage-contacts-repost"
    (trace (loadNotes cl (Resolved notes) lastReaction lastReply))
  = if defined (database cl) && truthy (publicKey cl) && defined (relayPool cl)
       && existsb (fun note => truthy (Note.repost_id note)) notes
    then match lastReaction, lastReply with
         | Resolved _, Resolved _ =>
             [[ {| kinds := [Text]; authors := None;
                   ids := Some (repostIdsOf notes);
                   tag_e := None; since := None; limit := None |} ]]
         | _, _ => []
         end
    else [].
Proof.
  rewrite LoadFacts.loadNotes_resolved.
  unfold loadNotes_then, repostIdsOf; cbv zeta. rewrite filter_map_nonempty.
  assert (He : existsb (fun note => truthy (Note.repost_id note)) notes = true ->
               (0 <? Z.of_nat (List.length notes)) = true).
  { destruct notes; [discriminate|reflexivity]. }
  destruct (existsb (fun note => truthy (Note.repost_id note)) notes).
  - rewrite (He eq_refl).
    destruct cl as [db pk pool ps]; split_context db pk pool;
      destruct lastReaction, lastReply; reflexivity.
  - destruct (0 <? Z.of_nat (List.length notes));
      destruct cl as [db pk pool ps]; split_context db pk pool;
      destruct lastReaction, lastReply; reflexivity.
Qed.

(** The pool calls of a load are subscriptions under the enrichment
    channels. *)
Lemma reactions_load_enriches cl reacted lastReaction lastReply :
  forallb
    (subscribesWithin
       [ "homepage-contacts-meta"; "homepage-contacts-reactions";
         "homepage-contacts-replies"; "homepage-contacts-repost" ])
    (poolCalls (trace (loadNotes cl reacted lastReaction lastReply)))
  = true.
Proof.
  destruct reacted as [notes|].
  - rewrite LoadFacts.loadNotes_resolved.
    LoadFacts.split_load cl notes lastReaction lastReply; reflexivity.
  - now rewrite LoadFacts.loadNotes_rejected.
Qed.

End EnrichmentFacts.

(** X1.  A rejected since-query cuts the enrichment short, not the items: when
    [getLastReaction] rejects, [loadNotes] of ReactionsFeed has stored the
    result and issued the metadata subscription only; when [getLastReply]
    rejects, it has also issued the reactions subscription, and neither the
    replies nor the reposts are asked for. *)
Theorem load_stops_at_rejected_query
    (cl : ReactionsFeed.Closure) (notes : list Note.t)
    (lastReaction : option Reaction.t) (lastReply : Outcome (option Note.t)) :
  (0 < List.length notes)%nat ->
  defined (ReactionsFeed.database cl) = true ->
  truthy (ReactionsFeed.publicKey cl) = true ->
  defined (ReactionsFeed.relayPool cl) = true ->
  let t1 := trace (ReactionsFeed.loadNotes cl (Resolved notes) Rejected lastReply) in
  let t2 := trace (ReactionsFeed.loadNotes cl (Resolved notes)
                     (Resolved lastReaction) Rejected) in
  (notesWrites t1 = [notes] /\ subscribed t1 = ["homepage-contacts-meta"]) /\
  (notesWrites t2 = [notes] /\
   subscribed t2 = ["homepage-contacts-meta"; "homepage-contacts-reactions"]).
Proof.
  intros Hn Hdb Hpk Hpool t1 t2. subst t1 t2.
  rewrite !LoadFacts.loadNotes_notesWrites.
  rewrite !LoadFacts.loadNotes_subscribed by exact Hn.
  unfold ReactionsFeed.enrichment. rewrite Hdb, Hpk, Hpool.
  repeat split; reflexivity.
Qed.

Lemma load_stops_at_rejected_query_witness :
  subscribed (trace (ReactionsFeed.loadNotes (Sample.reactions 10)
                       (Resolved [Sample.bobRepost]) (Resolved None) Rejected))
  = ["homepage-contacts-meta"; "homepage-contacts-reactions"].
Proof.
  assert (Hn : (0 < List.length [Sample.bobRepost])%nat) by (simpl; lia).
  apply (load_stops_at_rejected_query (Sample.reactions 10) [Sample.bobRepost]
           None Rejected Hn eq_refl eq_refl eq_refl).
Defined.

(** X2.  The two since-subscriptions of ReactionsFeed ask for the same notes: the
    ids of the result in order, one per note, the empty string for a note
    without [id].  Each is bounded below by the [created_at] of the last
    item the Store knows, and by 0 when it knows none or that item has no
    [created_at]. *)
Theorem load_since_filters
    (cl : ReactionsFeed.Closure) (notes : list Note.t)
    (lastReaction : option Reaction.t) (lastReply : option Note.t) :
  (0 < List.length notes)%nat ->
  defined (ReactionsFeed.database cl) = true ->
  truthy (ReactionsFeed.publicKey cl) = true ->
  defined (ReactionsFeed.relayPool cl) = true ->
  let t := trace (ReactionsFeed.loadNotes cl (Resolved notes)
                    (Resolved lastReaction) (Resolved lastReply)) in
  let noteIds := map (fun note => Note.id note ?? "") notes in
  issued "homepage-contacts-reactions" t
  = [[ {| ReactionsFeed.kinds := [ReactionsFeed.Reaction];
          ReactionsFeed.authors := None;
          ReactionsFeed.ids := None;
          ReactionsFeed.tag_e := Some noteIds;
          ReactionsFeed.since :=
            Some (match lastReaction with
                  | Some r => Reaction.created_at r ?? 0
                  | None => 0
                  end);
          ReactionsFeed.limit := None |} ]] /\
  issued "homepage-contacts-replies" t
  = [[ {| ReactionsFeed.kinds := [ReactionsFeed.Text];
          ReactionsFeed.authors := None;
          ReactionsFeed.ids := None;
          ReactionsFeed.tag_e := Some noteIds;
          ReactionsFeed.since :=
            Some (match lastReply with
                  | Some r => Note.created_at r ?? 0
                  | None => 0
                  end);
          ReactionsFeed.limit := None |} ]] /\
  List.length noteIds = List.length notes.
Proof.
  intros Hn Hdb Hpk Hpool t noteIds. subst t noteIds.
  rewrite LoadFacts.loadNotes_resolved, Hdb, Hpk.
  unfold ReactionsFeed.loadNotes_then; cbv zeta.
  rewrite filter_map_nonempty, (nonempty_ltb _ _ Hn).
  destruct (ReactionsFeed.relayPool cl) as [[]|]; [|discriminate].
  destruct (existsb _ notes); repeat split; try reflexivity; apply length_map.
Qed.

Lemma load_since_filters_witness :
  map ReactionsFeed.since
    (List.concat
       (issued "homepage-contacts-reactions"
          (trace (ReactionsFeed.loadNotes (Sample.reactions 10)
                    (Resolved [Sample.alice1; Sample.anonymous])
                    (Resolved (Some (Reaction.mk (Some 77))))
                    (Resolved None)))))
  = [Some 77].
Proof.
  assert (Hn : (0 < List.length [Sample.alice1; Sample.anonymous])%nat)
    by (simpl; lia).
  destruct (load_since_filters (Sample.reactions 10)
              [Sample.alice1; Sample.anonymous]
              (Some (Reaction.mk (Some 77))) None
              Hn eq_refl eq_refl eq_refl) as (H & _).
  rewrite H. reflexivity.
Defined.

(** X3.  Whenever [loadNotes] of ReactionsFeed asks for reposted originals, it
    asks by a non-empty list of ids that holds no empty string: exactly the
    non-empty [repost_id]s of the notes returned, in their order, so at most
    one per note. *)
Theorem load_repost_ids
    (cl : ReactionsFeed.Closure) (notes : list Note.t)
    (lastReaction : Outcome (option Reaction.t))
    (lastReply : Outcome (option Note.t)) :
  Forall
    (fun filters =>
       filters = [ {| ReactionsFeed.kinds := [ReactionsFeed.Text];
                      ReactionsFeed.authors := None;
                      ReactionsFeed.ids := Some (repostIdsOf notes);
                      ReactionsFeed.tag_e := None;
                      ReactionsFeed.since := None;
                      ReactionsFeed.limit := None |} ] /\
       repostIdsOf notes <> [])
    (issued "homepage-contacts-repost"
       (trace (ReactionsFeed.loadNotes cl (Resolved notes) lastReaction lastReply)))
  /\
  Forall (fun r => r <> "") (repostIdsOf notes) /\
  (forall r, In r (repostIdsOf notes) <->
             exists note, In note notes /\ Note.repost_id note = Some r /\ r <> "") /\
  (List.length (repostIdsOf notes) <= List.length notes)%nat.
Proof.
  repeat split.
  - rewrite EnrichmentFacts.loadNotes_repost.
    destruct (existsb (fun note => truthy (Note.repost_id note)) notes) eqn:He;
      [|rewrite andb_false_r; constructor].
    destruct (_ && _ && _); simpl; [|constructor].
    destruct lastReaction as [lr|]; [|constructor].
    destruct lastReply as [lp|]; [|constructor].
    constructor; [|constructor].
    split; [reflexivity|].
    apply existsb_exists in He. destruct He as (note & Hin & Ht).
    apply EnrichmentFacts.truthy_inv in Ht. destruct Ht as (r & Heq & Hne).
    intros Hnil.
    assert (Hr : In r (repostIdsOf notes))
      by (apply EnrichmentFacts.repostIdsOf_spec; eauto).
    rewrite Hnil in Hr. contradiction.
  - apply Forall_forall. intros r Hr.
    apply EnrichmentFacts.repostIdsOf_spec in Hr. now destruct Hr as (_ & _ & _ & H).
  - apply EnrichmentFacts.repostIdsOf_spec.
  - apply EnrichmentFacts.repostIdsOf_spec.
  - apply EnrichmentFacts.repostIdsOf_length.
Qed.

(** X4.  [loadNotes] only ever issues enrichment subscriptions: in ReactionsFeed
    its pool calls are subscriptions under the metadata, reactions, replies
    and repost channels, in NotificationsFeed under "mentions-answers".  It
    never retires anything and never issues the primary channel. *)
Theorem load_only_enriches
    (cl : ReactionsFeed.Closure) (cl' : NotificationsFeed.Closure)
    (reacted mentions : Outcome (list Note.t))
    (lastReaction : Outcome (option Reaction.t))
    (lastReply : Outcome (option Note.t)) :
  forallb
    (subscribesWithin
       [ "homepage-contacts-meta"; "homepage-contacts-reactions";
         "homepage-contacts-replies"; "homepage-contacts-repost" ])
    (poolCalls (trace (ReactionsFeed.loadNotes cl reacted lastReaction lastReply)))
  = true /\
  forallb (subscribesWithin ["mentions-answers"])
    (poolCalls (trace (NotificationsFeed.loadNotes cl' mentions)))
  = true.
Proof.
  split.
  - apply EnrichmentFacts.reactions_load_enriches.
  - rewrite NotificationFacts.mentions_loadNotes_trace.
    destruct mentions; split_ifs; reflexivity.
Qed.

(** ** A missing database *)

(** X5.  While [database] is undefined in the current render, an arriving
    event does nothing and a page growth changes the page size only
    (NotificationsFeed also retires), whatever the viewer's key and the
    pool; so does a change of key or pool that comes with no database.  The
    first effects and [onRefresh] go by the database of the first render: if
    there was none, the first effects only retire and [onRefresh] sets
    [refreshing], retires and stops, leaving the indicator on; if there was
    one, with a viewer's key, [onRefresh] of ReactionsFeed still resets the
    indicator (and with a pool, subscribes) even when the database is
    undefined now. *)
Theorem no_database_no_effect
    (i : ReactionsFeed.Instance) (j : NotificationsFeed.Instance)
    (s s1 s2 : ReactionsFeed.Store)
    (m m1 m2 m3 : Outcome (list Note.t)) (nearEnd : bool)
    (pk : JsString) (pool : option RelayPool) :
  (defined (ReactionsFeed.ctxDatabase i) = false ->
   ReactionsFeed.react i (ReactionsFeed.EventArrived s) = [] /\
   ReactionsFeed.react i (ReactionsFeed.Scrolled nearEnd)
   = if nearEnd
     then [SetPageSize (State.pageSize (ReactionsFeed.state i)
                        + ReactionsFeed.initialPageSize)]
     else []) /\
  (defined (NotificationsFeed.ctxDatabase j) = false ->
   NotificationsFeed.react j (NotificationsFeed.EventArrived m) = [] /\
   quiet (NotificationsFeed.react j (NotificationsFeed.Scrolled nearEnd m))) /\
  quiet (NotificationsFeed.react j
           (NotificationsFeed.ContextChanged None pk pool m)) /\
  (defined (ReactionsFeed.database (ReactionsFeed.first i)) = false ->
   ReactionsFeed.react i (ReactionsFeed.Mounted s1 s2)
   = trace (ReactionsFeed.unsubscribe (ReactionsFeed.first i)) /\
   ReactionsFeed.react i ReactionsFeed.Refreshed
   = SetRefreshing true
     :: trace (ReactionsFeed.unsubscribe (ReactionsFeed.first i)) /\
   State.refreshing
     (ReactionsFeed.state (ReactionsFeed.step i ReactionsFeed.Refreshed))
   = true) /\
  (defined (NotificationsFeed.database (NotificationsFeed.first j)) = false ->
   quiet (NotificationsFeed.react j (NotificationsFeed.Mounted m1 m2 m3)) /\
   NotificationsFeed.react j (NotificationsFeed.Refreshed m)
   = SetRefreshing true
     :: (if defined (NotificationsFeed.relayPool (NotificationsFeed.first j))
         then [Pool UnsubscribeAll] else []) /\
   State.refreshing
     (NotificationsFeed.state
        (NotificationsFeed.step j (NotificationsFeed.Refreshed m)))
   = true) /\
  (defined (ReactionsFeed.database (ReactionsFeed.first i)) = true ->
   truthy (ReactionsFeed.publicKey (ReactionsFeed.first i)) = true ->
   defined (ReactionsFeed.relayPool (ReactionsFeed.first i)) = true ->
   subscribed (ReactionsFeed.react i ReactionsFeed.Refreshed)
   = ["homepage-contacts-main"] /\
   refreshingWrites (ReactionsFeed.react i ReactionsFeed.Refreshed)
   = [true; false]).
Proof.
  repeat match goal with |- _ /\ _ => split end.
  - intros H.
    apply (GuardFacts.no_database _ (ReactionsFeed.ctxPublicKey i)) in H.
    split; [now apply GuardFacts.reactions_event
           |now apply GuardFacts.reactions_scroll].
  - intros H.
    apply (GuardFacts.no_database _ (NotificationsFeed.ctxPublicKey j)) in H.
    split; [now apply GuardFacts.mentions_event
           |now apply GuardFacts.mentions_scroll].
  - apply GuardFacts.mentions_context. reflexivity.
  - intros H.
    apply (GuardFacts.no_database _
             (ReactionsFeed.publicKey (ReactionsFeed.first i))) in H.
    pose proof (GuardFacts.reactions_refresh i H) as Hr.
    split; [now apply GuardFacts.reactions_mount|].
    split; [exact Hr|].
    assert (Hs : ReactionsFeed.state (ReactionsFeed.step i ReactionsFeed.Refreshed)
                 = commit (ReactionsFeed.state i)
                     (ReactionsFeed.react i ReactionsFeed.Refreshed))
      by reflexivity.
    rewrite Hs, Hr, ReactionFacts.unsubscribe_trace.
    destruct (ReactionsFeed.state i),
      (defined (ReactionsFeed.relayPool (ReactionsFeed.first i))); reflexivity.
  - intros H.
    apply (GuardFacts.no_database _
             (NotificationsFeed.publicKey (NotificationsFeed.first j))) in H.
    pose proof (GuardFacts.mentions_refresh j m H) as Hr.
    split; [now apply GuardFacts.mentions_mount|].
    split; [exact Hr|].
    assert (Hs : NotificationsFeed.state
                   (NotificationsFeed.step j (NotificationsFeed.Refreshed m))
                 = commit (NotificationsFeed.state j)
                     (NotificationsFeed.react j (NotificationsFeed.Refreshed m)))
      by reflexivity.
    rewrite Hs, Hr.
    destruct (NotificationsFeed.state j),
      (defined (NotificationsFeed.relayPool (NotificationsFeed.first j)));
      reflexivity.
  - intros Hdb Hpk Hpool. now apply GuardFacts.reactions_refresh_ready.
Qed.

Lemma no_database_no_effect_witness :
  let i := ReactionsFeed.step Sample.reactionsFeed
             (ReactionsFeed.ContextChanged None (Some "A") (Some RelayPoolRef)) in
  let i0 := ReactionsFeed.mount None (Some "A") (Some RelayPoolRef) in
  (ReactionsFeed.react i (ReactionsFeed.EventArrived (Sample.store [Sample.alice1]))
   = [] /\
   ReactionsFeed.react i (ReactionsFeed.Scrolled true) = [SetPageSize 20]) /\
  refreshingWrites (ReactionsFeed.react i ReactionsFeed.Refreshed)
  = [true; false] /\
  State.refreshing
    (ReactionsFeed.state (ReactionsFeed.step i0 ReactionsFeed.Refreshed))
  = true.
Proof.
  cbv zeta.
  pose proof (no_database_no_effect
                (ReactionsFeed.step Sample.reactionsFeed
                   (ReactionsFeed.ContextChanged None (Some "A")
                      (Some RelayPoolRef)))
                Sample.notificationsFeed
                (Sample.store [Sample.alice1]) (Sample.store []) (Sample.store [])
                Rejected Rejected Rejected Rejected true None None)
    as (Hnow & _ & _ & _ & _ & Hstale).
  pose proof (no_database_no_effect
                (ReactionsFeed.mount None (Some "A") (Some RelayPoolRef))
                Sample.notificationsFeed
                (Sample.store []) (Sample.store []) (Sample.store [])
                Rejected Rejected Rejected Rejected true None None)
    as (_ & _ & _ & Hfirst & _).
  split; [exact (Hnow eq_refl)|].
  split; [exact (proj2 (Hstale eq_refl eq_refl eq_refl))|].
  exact (proj2 (proj2 (Hfirst eq_refl))).
Defined.

(** ** The indicator after a refresh *)

(** X6.  In ReactionsFeed the refresh indicator is off after [onRefresh] exactly
    when the first render had a database and a viewer key, pool or no pool:
    [subscribeNotes] resets it in the same handler.  Otherwise it is left
    on.  Items and page size are as before. *)
Theorem reactions_refresh_indicator (i : ReactionsFeed.Instance) :
  let i' := ReactionsFeed.step i ReactionsFeed.Refreshed in
  State.refreshing (ReactionsFeed.state i')
  = negb (defined (ReactionsFeed.database (ReactionsFeed.first i))
          && truthy (ReactionsFeed.publicKey (ReactionsFeed.first i))) /\
  State.notes (ReactionsFeed.state i') = State.notes (ReactionsFeed.state i) /\
  State.pageSize (ReactionsFeed.state i') = State.pageSize (ReactionsFeed.state i).
Proof.
  cbv zeta. destruct i as [[db pk pool ps] db' pk' pool' [ns p r]].
  unfold ReactionsFeed.step, ReactionsFeed.react, ReactionsFeed.withState.
  cbn [ReactionsFeed.first ReactionsFeed.state].
  rewrite ReactionFacts.onRefresh_trace, ReactionFacts.unsubscribe_trace,
    ReactionFacts.subscribeNotes_trace.
  split_context db pk pool; repeat split; reflexivity.
Qed.

(** X7.  In NotificationsFeed the indicator is off after [onRefresh] exactly when
    the first render had the pool, the viewer's key and the database and the
    query resolves: only the callback of [loadNotes] resets it.  In that
    case the items are the result; otherwise they are as before. *)
Theorem notifications_refresh_indicator
    (j : NotificationsFeed.Instance) (mentions : Outcome (list Note.t)) :
  let cl := NotificationsFeed.first j in
  let ready := defined (NotificationsFeed.relayPool cl)
               && truthy (NotificationsFeed.publicKey cl)
               && defined (NotificationsFeed.database cl) in
  let j' := NotificationsFeed.step j (NotificationsFeed.Refreshed mentions) in
  match mentions with
  | Resolved notes =>
      State.refreshing (NotificationsFeed.state j') = negb ready /\
      State.notes (NotificationsFeed.state j')
      = if ready then notes else State.notes (NotificationsFeed.state j)
  | Rejected =>
      State.refreshing (NotificationsFeed.state j') = true /\
      State.notes (NotificationsFeed.state j')
      = State.notes (NotificationsFeed.state j)
  end.
Proof.
  cbv zeta. destruct j as [[db pk pool ps] db' pk' pool' [ns p r]].
  unfold NotificationsFeed.step, NotificationsFeed.react,
    NotificationsFeed.withState.
  cbn [NotificationsFeed.first NotificationsFeed.state].
  NotificationFacts.mentions_traces.
  split_context db pk pool; destruct mentions; split; reflexivity.
Qed.

(** ** The page size over a session *)

Module SessionFacts.

Lemma reactions_run_cons i e es :
  ReactionsFeed.run i (e :: es) = ReactionsFeed.run (ReactionsFeed.step i e) es.
Proof. reflexivity. Qed.

Lemma notifications_run_cons j e es :
  NotificationsFeed.run j (e :: es)
  = NotificationsFeed.run (NotificationsFeed.step j e) es.
Proof. reflexivity. Qed.

Lemma reactions_run_pageSize es :
  forall i,
    State.pageSize (ReactionsFeed.state (ReactionsFeed.run i es))
    = State.pageSize (ReactionsFeed.state i)
      + ReactionsFeed.initialPageSize
        * Z.of_nat (List.length (filter reactionsGrowth es)).
Proof.
  induction es as [|e es IH]; intros i.
  - simpl. lia.
  - rewrite reactions_run_cons, IH, ReactionFacts.step_pageSize.
    unfold ReactionsFeed.initialPageSize.
    destruct e as [| [|] | | |]; cbn [filter reactionsGrowth List.length]; lia.
Qed.

Lemma notifications_run_pageSize es :
  forall j,
    State.pageSize (NotificationsFeed.state (NotificationsFeed.run j es))
    = State.pageSize (NotificationsFeed.state j)
      + NotificationsFeed.initialPageSize
        * Z.of_nat (List.length (filter notificationsGrowth es)).
Proof.
  induction es as [|e es IH]; intros j.
  - simpl. lia.
  - rewrite notifications_run_cons, IH, NotificationFacts.mentions_step_pageSize.
    unfold NotificationsFeed.initialPageSize.
    destruct e as [| [|] | | |]; cbn [filter notificationsGrowth List.length];
      lia.
Qed.

End SessionFacts.

(** X8.  After any sequence of events (first effects, scrolls, refreshes,
    arriving events, context changes) the page size of a mounted component
    is the initial one plus [initialPageSize] for each scroll to the end of
    the list: nothing else changes it, no refresh or reload resets it, and
    it never falls below the initial value. *)
Theorem page_size_counts_growths
    (db : option Database) (pk : JsString) (pool : option RelayPool)
    (es : list ReactionsFeed.Event) (es' : list NotificationsFeed.Event) :
  let p := State.pageSize
             (ReactionsFeed.state
                (ReactionsFeed.run (ReactionsFeed.mount db pk pool) es)) in
  let q := State.pageSize
             (NotificationsFeed.state
                (NotificationsFeed.run (NotificationsFeed.mount db pk pool) es')) in
  (p = ReactionsFeed.initialPageSize
       * (1 + Z.of_nat (List.length (filter reactionsGrowth es))) /\
   ReactionsFeed.initialPageSize <= p) /\
  (q = NotificationsFeed.initialPageSize
       * (1 + Z.of_nat (List.length (filter notificationsGrowth es'))) /\
   NotificationsFeed.initialPageSize <= q).
Proof.
  cbv zeta.
  rewrite SessionFacts.reactions_run_pageSize,
    SessionFacts.notifications_run_pageSize.
  unfold ReactionsFeed.mount, NotificationsFeed.mount.
  cbn [ReactionsFeed.state NotificationsFeed.state State.pageSize].
  unfold ReactionsFeed.initialPageSize, NotificationsFeed.initialPageSize.
  repeat split; lia.
Qed.

(** ** Refreshing after the page has grown *)

(** X9.  However far the page has grown, [onRefresh] subscribes with the limit of
    the first render, [initialPageSize]: the memoised handler never sees a
    later [pageSize].  This holds in both components, after any sequence of
    events. *)
Theorem refresh_limit_is_initial
    (db : option Database) (pk : JsString) (pool : option RelayPool)
    (es : list ReactionsFeed.Event) (es' : list NotificationsFeed.Event)
    (mentions : Outcome (list Note.t)) :
  defined db = true -> truthy pk = true -> defined pool = true ->
  map (map ReactionsFeed.limit)
    (issued "homepage-contacts-main"
       (ReactionsFeed.react
          (ReactionsFeed.run (ReactionsFeed.mount db pk pool) es)
          ReactionsFeed.Refreshed))
  = [[Some ReactionsFeed.initialPageSize]] /\
  map (map NotificationsFeed.limit)
    (issued "mentions-user"
       (NotificationsFeed.react
          (NotificationsFeed.run (NotificationsFeed.mount db pk pool) es')
          (NotificationsFeed.Refreshed mentions)))
  = [[Some NotificationsFeed.initialPageSize;
      Some NotificationsFeed.initialPageSize]].
Proof.
  intros Hdb Hpk Hpool. split.
  - now rewrite RefreshFacts.reactions_refresh_limit.
  - simpl NotificationsFeed.react.
    rewrite NotificationFacts.mentions_first_run. simpl NotificationsFeed.first.
    NotificationFacts.mentions_traces. simpl.
    rewrite Hdb, Hpk, Hpool. simpl.
    destruct mentions; reflexivity.
Qed.

Lemma refresh_limit_is_initial_witness :
  let i := ReactionsFeed.run Sample.reactionsFeed
             [ReactionsFeed.Scrolled true; ReactionsFeed.Scrolled true] in
  State.pageSize (ReactionsFeed.state i) = 30 /\
  map (map ReactionsFeed.limit)
    (issued "homepage-contacts-main"
       (ReactionsFeed.react i ReactionsFeed.Refreshed))
  = [[Some 10]].
Proof.
  cbv zeta. split; [reflexivity|].
  apply (refresh_limit_is_initial (Some QuickSQLiteConnection) (Some "A")
           (Some RelayPoolRef)
           [ReactionsFeed.Scrolled true; ReactionsFeed.Scrolled true]
           [] Rejected eq_refl eq_refl eq_refl).
Defined.

(** ** Arriving events and the pool *)

(** X10.  The two components guard the effect on arriving events differently.
    ReactionsFeed does nothing at all while the relay pool is undefined, not
    even a load from the database.  NotificationsFeed loads regardless: with
    a database and a viewer key but no pool it stores the result, resets the
    indicator and issues nothing. *)
Theorem event_without_pool
    (i : ReactionsFeed.Instance) (j : NotificationsFeed.Instance)
    (s : ReactionsFeed.Store) (notes : list Note.t) :
  defined (ReactionsFeed.ctxRelayPool i) = false ->
  defined (NotificationsFeed.ctxRelayPool j) = false ->
  defined (NotificationsFeed.ctxDatabase j) = true ->
  truthy (NotificationsFeed.ctxPublicKey j) = true ->
  ReactionsFeed.react i (ReactionsFeed.EventArrived s) = [] /\
  NotificationsFeed.react j (NotificationsFeed.EventArrived (Resolved notes))
  = [SetNotes notes; SetRefreshing false].
Proof.
  intros Hpool Hpool' Hdb Hpk. split.
  - simpl. unfold ReactionsFeed.eventEffect. simpl. now rewrite Hpool.
  - simpl. unfold NotificationsFeed.eventEffect.
    rewrite NotificationFacts.mentions_loadNotes_trace. simpl.
    now rewrite Hdb, Hpk, Hpool'.
Qed.

Lemma event_without_pool_witness :
  ReactionsFeed.react
    (ReactionsFeed.mount (Some QuickSQLiteConnection) (Some "A") None)
    (ReactionsFeed.EventArrived (Sample.store [Sample.alice1])) = [] /\
  NotificationsFeed.react
    (NotificationsFeed.mount (Some QuickSQLiteConnection) (Some "A") None)
    (NotificationsFeed.EventArrived (Resolved [Sample.alice1]))
  = [SetNotes [Sample.alice1]; SetRefreshing false].
Proof.
  apply (event_without_pool
           (ReactionsFeed.mount (Some QuickSQLiteConnection) (Some "A") None)
           (NotificationsFeed.mount (Some QuickSQLiteConnection) (Some "A") None)
           (Sample.store [Sample.alice1]) [Sample.alice1]);
    reflexivity.
Defined.

(** ** Changes of the context *)

Module ContextFacts.

Lemma sameContext_refl j :
  NotificationsFeed.sameContext j (NotificationsFeed.ctxPublicKey j)
    (NotificationsFeed.ctxRelayPool j) = true.
Proof.
  unfold NotificationsFeed.sameContext.
  destruct (NotificationsFeed.ctxPublicKey j) as [pk|];
    destruct (NotificationsFeed.ctxRelayPool j) as [[]|]; simpl;
    rewrite ?String.eqb_refl, ?Nat.eqb_refl; reflexivity.
Qed.

Lemma samePool_spec (a b : option RelayPool) : samePool a b = true <-> a = b.
Proof.
  destruct a as [[m]|], b as [[n]|]; simpl; split; try discriminate; auto.
  - intros H. apply Nat.eqb_eq in H. now subst.
  - intros H. injection H as ->. apply Nat.eqb_refl.
Qed.

(** The effect is skipped exactly when neither the key nor the pool
    changed. *)
Lemma sameContext_spec j pk pool :
  NotificationsFeed.sameContext j pk pool = true <->
  pk = NotificationsFeed.ctxPublicKey j /\ pool = NotificationsFeed.ctxRelayPool j.
Proof.
  unfold NotificationsFeed.sameContext. rewrite andb_true_iff, samePool_spec.
  assert (Hk : match NotificationsFeed.ctxPublicKey j, pk with
               | Some a, Some b => String.eqb a b
               | None, None => true
               | _, _ => false
               end = true <-> pk = NotificationsFeed.ctxPublicKey j).
  { destruct (NotificationsFeed.ctxPublicKey j) as [a|], pk as [b|];
      split; try discriminate; auto.
    - intros H. apply String.eqb_eq in H. now subst.
    - intros H. injection H as ->. apply String.eqb_refl. }
  rewrite Hk. split; intros [H1 H2]; split; auto.
Qed.

End ContextFacts.

(** X11.  No effect of either component depends on [database].  When the database
    alone changes, nothing is retired, issued or loaded and the state stays
    as it is.  So a component mounted without a database issues no
    subscription in its first effects, and none when the database arrives:
    it is left without its primary subscription until something else
    triggers one. *)
Theorem database_change_triggers_nothing
    (i : ReactionsFeed.Instance) (j : NotificationsFeed.Instance)
    (db : option Database) (pk : JsString) (pool : option RelayPool)
    (s1 s2 : ReactionsFeed.Store) (m1 m2 m3 mentions : Outcome (list Note.t)) :
  let e := ReactionsFeed.ContextChanged db (ReactionsFeed.ctxPublicKey i)
             (ReactionsFeed.ctxRelayPool i) in
  let e' := NotificationsFeed.ContextChanged db (NotificationsFeed.ctxPublicKey j)
              (NotificationsFeed.ctxRelayPool j) mentions in
  let i0 := ReactionsFeed.mount None pk pool in
  let j0 := NotificationsFeed.mount None pk pool in
  (ReactionsFeed.react i e = [] /\
   ReactionsFeed.state (ReactionsFeed.step i e) = ReactionsFeed.state i) /\
  (NotificationsFeed.react j e' = [] /\
   NotificationsFeed.state (NotificationsFeed.step j e') = NotificationsFeed.state j /\
   NotificationsFeed.ctxDatabase (NotificationsFeed.step j e') = db) /\
  (subscribed (ReactionsFeed.react i0 (ReactionsFeed.Mounted s1 s2)) = [] /\
   subscribed
     (ReactionsFeed.react
        (ReactionsFeed.step i0 (ReactionsFeed.Mounted s1 s2))
        (ReactionsFeed.ContextChanged db pk pool)) = []) /\
  (subscribed (NotificationsFeed.react j0 (NotificationsFeed.Mounted m1 m2 m3)) = [] /\
   subscribed
     (NotificationsFeed.react
        (NotificationsFeed.step j0 (NotificationsFeed.Mounted m1 m2 m3))
        (NotificationsFeed.ContextChanged db pk pool mentions)) = []).
Proof.
  cbv zeta. split; [split; reflexivity|].
  assert (H : NotificationsFeed.react j
                (NotificationsFeed.ContextChanged db
                   (NotificationsFeed.ctxPublicKey j)
                   (NotificationsFeed.ctxRelayPool j) mentions) = [])
    by (simpl; now rewrite ContextFacts.sameContext_refl).
  split; [|split].
  - repeat split.
    + exact H.
    + unfold NotificationsFeed.step. now rewrite H.
  - split; [|reflexivity].
    simpl ReactionsFeed.react. rewrite ReactionFacts.mountEffect_trace.
    rewrite ReactionFacts.unsubscribe_trace, ReactionFacts.subscribeNotes_trace.
    unfold ReactionsFeed.eventEffect, ReactionsFeed.pageSizeEffect,
      ReactionsFeed.loadNotes.
    simpl. destruct pool as [[]|], (truthy pk); reflexivity.
  - split.
    + simpl NotificationsFeed.react.
      unfold NotificationsFeed.contextEffect, NotificationsFeed.eventEffect.
      NotificationFacts.mentions_traces. simpl.
      destruct pool as [[]|], (truthy pk); reflexivity.
    + pose proof (ContextFacts.sameContext_refl
                    (NotificationsFeed.step
                       (NotificationsFeed.mount None pk pool)
                       (NotificationsFeed.Mounted m1 m2 m3))) as Hs.
      simpl in Hs. simpl NotificationsFeed.react.
      unfold NotificationsFeed.sameContext. simpl.
      unfold NotificationsFeed.sameContext in Hs. simpl in Hs.
      now rewrite Hs.
Qed.

(** X12.  When the viewer's key changes, or the relay pool is replaced (by
    another pool, or appears or goes), and afterwards database, key and pool
    are there, NotificationsFeed retires everything, issues the primary
    subscription with the current page size (not the initial one) and
    loads. *)
Theorem context_change_restarts
    (j : NotificationsFeed.Instance)
    (db : option Database) (pk : JsString) (pool : option RelayPool)
    (mentions : Outcome (list Note.t)) :
  pk <> NotificationsFeed.ctxPublicKey j \/
  pool <> NotificationsFeed.ctxRelayPool j ->
  defined db = true -> truthy pk = true -> defined pool = true ->
  let cl := {| NotificationsFeed.database := db;
               NotificationsFeed.publicKey := pk;
               NotificationsFeed.relayPool := pool;
               NotificationsFeed.pageSize :=
                 State.pageSize (NotificationsFeed.state j) |} in
  let t := NotificationsFeed.react j
             (NotificationsFeed.ContextChanged db pk pool mentions) in
  t = Pool UnsubscribeAll
      :: trace (NotificationsFeed.subscribeNotes cl)
      ++ trace (NotificationsFeed.loadNotes cl mentions) /\
  map (map NotificationsFeed.limit) (issued "mentions-user" t)
  = [[Some (State.pageSize (NotificationsFeed.state j));
      Some (State.pageSize (NotificationsFeed.state j))]].
Proof.
  intros Hchange Hdb Hpk Hpool cl t. subst cl t.
  assert (Hctx : NotificationsFeed.sameContext j pk pool = false).
  { destruct (NotificationsFeed.sameContext j pk pool) eqn:E; [|reflexivity].
    apply ContextFacts.sameContext_spec in E. destruct E as [E1 E2].
    destruct Hchange as [H|H]; contradiction. }
  simpl NotificationsFeed.react. rewrite Hctx.
  unfold NotificationsFeed.contextEffect.
  rewrite NotificationFacts.restart_trace. simpl.
  rewrite Hpool, Hpk. simpl. split; [reflexivity|].
  NotificationFacts.mentions_traces. simpl.
  rewrite Hdb, Hpk, Hpool. simpl.
  destruct mentions; reflexivity.
Qed.

Lemma context_change_restarts_witness :
  let j := NotificationsFeed.run Sample.notificationsFeed
             [ NotificationsFeed.Mounted (Resolved [Sample.alice1])
                 (Resolved [Sample.alice1]) Rejected;
               NotificationsFeed.Scrolled true (Resolved [Sample.alice1]) ] in
  State.notes (NotificationsFeed.state j) = [Sample.alice1] /\
  map (map NotificationsFeed.limit)
    (issued "mentions-user"
       (NotificationsFeed.react j
          (NotificationsFeed.ContextChanged (Some QuickSQLiteConnection)
             (Some "A") (Some (RelayPoolObject 1)) Rejected)))
  = [[Some 20; Some 20]].
Proof.
  cbv zeta. split; [reflexivity|].
  apply (context_change_restarts
           (NotificationsFeed.run Sample.notificationsFeed
              [ NotificationsFeed.Mounted (Resolved [Sample.alice1])
                  (Resolved [Sample.alice1]) Rejected;
                NotificationsFeed.Scrolled true (Resolved [Sample.alice1]) ])
           (Some QuickSQLiteConnection) (Some "A") (Some (RelayPoolObject 1))
           Rejected);
    try reflexivity.
  right. vm_compute. discriminate.
Defined.

(** ** The first effects *)

Module MountFacts.

(** Calls that only subscribe under other names do not bear on whether
    [name] is retired before it is issued. *)
Lemma retiresFirst_app (Filter : Type) (names : list string) (name : string)
    (cs ds : list (PoolCall Filter)) :
  existsb (String.eqb name) names = false ->
  forallb (subscribesWithin names) ds = true ->
  forall live,
    retiresFirst name live (cs ++ ds) = retiresFirst name live cs.
Proof.
  intros Hname Hds.
  assert (Hd : forall live, retiresFirst name live ds = true).
  { induction ds as [|d ds IH]; intros live; [reflexivity|].
    simpl in Hds. apply andb_true_iff in Hds. destruct Hds as [Hd Hds].
    destruct d as [n fs| |]; simpl in Hd; try discriminate.
    simpl. destruct (String.eqb_spec n name) as [->|_].
    - rewrite Hname in Hd. discriminate.
    - now apply IH. }
  induction cs as [|c cs IH]; intros live; simpl; [apply Hd|].
  destruct c as [n fs|ns|]; [|apply IH|apply IH].
  destruct (String.eqb n name); [now rewrite IH|apply IH].
Qed.

End MountFacts.

(** X13.  The first effects of ReactionsFeed retire before they issue: whatever
    the context and however the Store answers, the primary channel is
    retired by name before it is issued, and the two loads that follow do
    not touch it.  With database, viewer key and pool there, the pool calls
    begin with the retirement of the five names and the primary
    subscription at [initialPageSize]. *)
Theorem first_effects_retire_then_issue
    (db : option Database) (pk : JsString) (pool : option RelayPool)
    (s1 s2 : ReactionsFeed.Store) (live : bool) :
  let t := ReactionsFeed.react (ReactionsFeed.mount db pk pool)
             (ReactionsFeed.Mounted s1 s2) in
  retiresFirst "homepage-contacts-main" live (poolCalls t) = true /\
  (defined db = true -> truthy pk = true -> defined pool = true ->
   firstn 2 (poolCalls t)
   = [ Unsubscribe [ "homepage-contacts-main";
                     "homepage-contacts-meta";
                     "homepage-contacts-replies";
                     "homepage-contacts-reactions";
                     "homepage-contacts-repost" ];
       Subscribe "homepage-contacts-main"
         [ {| ReactionsFeed.kinds := [ReactionsFeed.Reaction];
              ReactionsFeed.authors := Some [pk ?? ""];
              ReactionsFeed.ids := None;
              ReactionsFeed.tag_e := None;
              ReactionsFeed.since := None;
              ReactionsFeed.limit := Some ReactionsFeed.initialPageSize |} ] ]).
Proof.
  cbv zeta. simpl ReactionsFeed.react.
  rewrite ReactionFacts.mountEffect_trace.
  unfold ReactionsFeed.pageSizeEffect. simpl ReactionsFeed.pageSize.
  change (ReactionsFeed.initialPageSize <? ReactionsFeed.initialPageSize)
    with false.
  cbn [when trace ret fst]. rewrite app_nil_r.
  set (cl := {| ReactionsFeed.database := db; ReactionsFeed.publicKey := pk;
                ReactionsFeed.relayPool := pool;
                ReactionsFeed.pageSize := ReactionsFeed.initialPageSize |}).
  set (names := [ "homepage-contacts-meta"; "homepage-contacts-reactions";
                  "homepage-contacts-replies"; "homepage-contacts-repost" ]).
  assert (Hload : forall s,
             forallb (subscribesWithin names)
               (poolCalls
                  (trace (ReactionsFeed.loadNotes cl (ReactionsFeed.reacted s)
                            (ReactionsFeed.lastReaction s)
                            (ReactionsFeed.lastReply s)))) = true).
  { intros s. apply EnrichmentFacts.reactions_load_enriches. }
  assert (Hevent : forallb (subscribesWithin names)
                     (poolCalls
                        (trace (ReactionsFeed.eventEffect cl
                                  (ReactionsFeed.reacted s2)
                                  (ReactionsFeed.lastReaction s2)
                                  (ReactionsFeed.lastReply s2)))) = true).
  { unfold ReactionsFeed.eventEffect, when.
    destruct (_ && _); [apply Hload|reflexivity]. }
  split.
  - rewrite !poolCalls_app, !app_assoc.
    rewrite (MountFacts.retiresFirst_app _ names) by (reflexivity || exact Hevent).
    rewrite (MountFacts.retiresFirst_app _ names) by (reflexivity || apply Hload).
    rewrite ReactionFacts.unsubscribe_trace, ReactionFacts.subscribeNotes_trace.
    subst cl. split_context db pk pool; destruct live; reflexivity.
  - intros Hdb Hpk Hpool.
    rewrite ReactionFacts.unsubscribe_trace, ReactionFacts.subscribeNotes_trace.
    subst cl. simpl. rewrite Hdb, Hpk, Hpool. reflexivity.
Qed.

Lemma first_effects_retire_then_issue_witness :
  map (@addressed _)
    (firstn 2
       (poolCalls
          (ReactionsFeed.react Sample.reactionsFeed
             (ReactionsFeed.Mounted (Sample.store [Sample.bobRepost])
                (Sample.store [])))))
  = [ Some [ "homepage-contacts-main"; "homepage-contacts-meta";
             "homepage-contacts-replies"; "homepage-contacts-reactions";
             "homepage-contacts-repost" ];
      Some ["homepage-contacts-main"] ].
Proof.
  destruct (first_effects_retire_then_issue (Some QuickSQLiteConnection)
              (Some "A") (Some RelayPoolRef)
              (Sample.store [Sample.bobRepost]) (Sample.store []) true)
    as [_ H].
  unfold Sample.reactionsFeed. rewrite (H eq_refl eq_refl eq_refl).
  reflexivity.
Defined.

(** ** What is on the screen after a load *)

(** X14.  After a load of NotificationsFeed that resolves, the screen shows the
    list exactly when the result is not empty: then the refresh indicator is
    off, there is one card per note, in order and keyed by the note's [id],
    and the spinner at the end is there exactly for ten notes or more,
    whatever the page size.  For an empty result no [ScrollView] is
    rendered, and with it neither the [RefreshControl] nor [onScroll]. *)
Theorem notifications_screen_after_load
    (cl : NotificationsFeed.Closure) (s : State.t) (notes : list Note.t)
    (profileCardPubkey : JsString) :
  defined (NotificationsFeed.database cl) = true ->
  truthy (NotificationsFeed.publicKey cl) = true ->
  let s' := commit s (trace (NotificationsFeed.loadNotes cl (Resolved notes))) in
  let screen := NotificationsView.render s' profileCardPubkey in
  match NotificationsView.scrollView screen with
  | None => notes = []
  | Some view =>
      notes <> [] /\
      NotificationsView.refreshing view = false /\
      map Card.note (NotificationsView.cards view) = notes /\
      map Card.key (NotificationsView.cards view) = map Note.id notes /\
      (NotificationsView.footer view = true <-> (10 <= List.length notes)%nat)
  end.
Proof.
  intros Hdb Hpk s' screen.
  assert (Hs : s' = {| State.notes := notes;
                       State.pageSize := State.pageSize s;
                       State.refreshing := false |}).
  { subst s'. rewrite NotificationFacts.mentions_loadNotes_trace, Hdb, Hpk.
    destruct s, (defined (NotificationsFeed.relayPool cl)); reflexivity. }
  subst screen. rewrite Hs. unfold NotificationsView.render.
  cbn [State.notes State.refreshing NotificationsView.scrollView].
  destruct notes as [|note notes]; [reflexivity|].
  replace (0 <? Z.of_nat (List.length (note :: notes))) with true
    by (symmetry; apply Z.ltb_lt; simpl; lia).
  cbn [NotificationsView.refreshing NotificationsView.cards
       NotificationsView.footer].
  repeat split.
  - discriminate.
  - rewrite map_map. simpl. f_equal. apply map_id.
  - rewrite map_map. reflexivity.
  - intros H. apply Z.leb_le in H. lia.
  - intros H. apply Z.leb_le. lia.
Qed.

Lemma notifications_screen_after_load_witness :
  NotificationsView.scrollView
    (NotificationsView.render
       (commit (NotificationsFeed.state Sample.notificationsFeed)
          (trace (NotificationsFeed.loadNotes (Sample.notifications 10)
                    (Resolved []))))
       None)
  = None.
Proof.
  pose proof (notifications_screen_after_load (Sample.notifications 10)
                (NotificationsFeed.state Sample.notificationsFeed) [] None
                eq_refl eq_refl) as H.
  cbv zeta in H.
  destruct (NotificationsView.scrollView _); [|reflexivity].
  destruct H as [H _]. now elim H.
Defined.

(** Pressing the options of a card hands the bottom sheet the [pubkey] of
    that card's note, or the empty key when the note has none. *)
Remark profile_card_after_press (s : State.t) (note : Note.t) :
  NotificationsView.userPubKey
    (NotificationsView.render s (NotificationsView.onPressOptions note))
  = Note.pubkey note ?? "".
Proof. reflexivity. Qed.

(** X15.  After a load of ReactionsFeed that resolves, the list is given the
    result as its data, the footer spinner is there exactly when the result
    is not empty, and the refresh indicator is as it was before the load. *)
Theorem reactions_list_after_load
    (cl : ReactionsFeed.Closure) (s : State.t) (notes : list Note.t)
    (lastReaction : Outcome (option Reaction.t))
    (lastReply : Outcome (option Note.t)) :
  defined (ReactionsFeed.database cl) = true ->
  truthy (ReactionsFeed.publicKey cl) = true ->
  let s' := commit s (trace (ReactionsFeed.loadNotes cl (Resolved notes)
                               lastReaction lastReply)) in
  let list := ReactionsView.render s' in
  ReactionsView.data list = notes /\
  map Card.key (map renderItem (ReactionsView.data list)) = map Note.id notes /\
  (ReactionsView.listFooter list = true <-> notes <> []) /\
  ReactionsView.refreshing list = State.refreshing s.
Proof.
  intros Hdb Hpk s' list.
  assert (Hnotes : State.notes s' = notes).
  { subst s'. rewrite LoadFacts.loadNotes_resolved, Hdb, Hpk.
    LoadFacts.split_load cl notes lastReaction lastReply; destruct s;
      reflexivity. }
  assert (Hr : State.refreshing s' = State.refreshing s).
  { subst s'. apply commit_refreshing, LoadFacts.loadNotes_refreshingWrites. }
  subst list. unfold ReactionsView.render.
  cbn [ReactionsView.data ReactionsView.listFooter ReactionsView.refreshing].
  rewrite Hnotes, Hr. repeat split.
  - rewrite map_map. reflexivity.
  - intros H ->. discriminate.
  - intros H. destruct notes; [contradiction|reflexivity].
Qed.

Lemma reactions_list_after_load_witness :
  ReactionsView.data
    (ReactionsView.render
       (commit (ReactionsFeed.state Sample.reactionsFeed)
          (trace (ReactionsFeed.loadNotes (Sample.reactions 10)
                    (Resolved [Sample.alice1]) (Resolved None) Rejected))))
  = [Sample.alice1].
Proof.
  apply (reactions_list_after_load (Sample.reactions 10)
           (ReactionsFeed.state Sample.reactionsFeed) [Sample.alice1]
           (Resolved None) Rejected eq_refl eq_refl).
Defined.

(** ** Loads replace, they do not append *)

(** X16.  The items after a load that resolves are its result alone, whatever was
    loaded before, in both components: a second load does not append to the
    first, and loading the same result twice leaves what loading it once
    does. *)
Theorem load_replaces_items
    (cl : ReactionsFeed.Closure) (cl' : NotificationsFeed.Closure)
    (s : State.t) (earlier notes : list Note.t)
    (r1 r2 : Outcome (option Reaction.t)) (p1 p2 : Outcome (option Note.t)) :
  defined (ReactionsFeed.database cl) = true ->
  truthy (ReactionsFeed.publicKey cl) = true ->
  defined (NotificationsFeed.database cl') = true ->
  truthy (NotificationsFeed.publicKey cl') = true ->
  let load ns r p := trace (ReactionsFeed.loadNotes cl (Resolved ns) r p) in
  let load' ns := trace (NotificationsFeed.loadNotes cl' (Resolved ns)) in
  (State.notes (commit (commit s (load earlier r1 p1)) (load notes r2 p2)) = notes /\
   commit (commit s (load notes r1 p1)) (load notes r2 p2)
   = commit s (load notes r1 p1)) /\
  (State.notes (commit (commit s (load' earlier)) (load' notes)) = notes /\
   commit (commit s (load' notes)) (load' notes) = commit s (load' notes)).
Proof.
  intros Hdb Hpk Hdb' Hpk' load load'.
  assert (H : forall s0 ns r p,
             commit s0 (load ns r p)
             = {| State.notes := ns; State.pageSize := State.pageSize s0;
                  State.refreshing := State.refreshing s0 |}).
  { intros s0 ns r p. subst load. cbv beta.
    rewrite LoadFacts.loadNotes_resolved, Hdb, Hpk.
    LoadFacts.split_load cl ns r p; destruct s0; reflexivity. }
  assert (H' : forall s0 ns,
             commit s0 (load' ns)
             = {| State.notes := ns; State.pageSize := State.pageSize s0;
                  State.refreshing := false |}).
  { intros s0 ns. subst load'. cbv beta.
    rewrite NotificationFacts.mentions_loadNotes_trace, Hdb', Hpk'.
    destruct s0, (defined (NotificationsFeed.relayPool cl')); reflexivity. }
  rewrite !H, !H'. repeat split.
Qed.

Lemma load_replaces_items_witness :
  State.notes
    (commit
       (commit (ReactionsFeed.state Sample.reactionsFeed)
          (trace (ReactionsFeed.loadNotes (Sample.reactions 10)
                    (Resolved [Sample.alice1; Sample.alice2])
                    (Resolved None) (Resolved None))))
       (trace (ReactionsFeed.loadNotes (Sample.reactions 10)
                 (Resolved [Sample.bobRepost]) Rejected Rejected)))
  = [Sample.bobRepost].
Proof.
  apply (load_replaces_items (Sample.reactions 10) (Sample.notifications 10)
           (ReactionsFeed.state Sample.reactionsFeed)
           [Sample.alice1; Sample.alice2] [Sample.bobRepost]
           (Resolved None) Rejected (Resolved None) Rejected
           eq_refl eq_refl eq_refl eq_refl).
Defined.

(** ** Page growth when the query fails *)

(** X17.  When the page of NotificationsFeed grows and the query of the load that
    follows is rejected, everything has been retired and only the primary
    subscription is issued again: the enrichment channel "mentions-answers"
    is not, and the items and the indicator are as before. *)
Theorem growth_with_rejected_query
    (j : NotificationsFeed.Instance) :
  0 < State.pageSize (NotificationsFeed.state j) ->
  defined (NotificationsFeed.ctxDatabase j) = true ->
  truthy (NotificationsFeed.ctxPublicKey j) = true ->
  defined (NotificationsFeed.ctxRelayPool j) = true ->
  let e := NotificationsFeed.Scrolled true Rejected in
  let t := NotificationsFeed.react j e in
  map (@addressed _) (poolCalls t) = [None; Some ["mentions-user"]] /\
  State.notes (NotificationsFeed.state (NotificationsFeed.step j e))
  = State.notes (NotificationsFeed.state j) /\
  State.refreshing (NotificationsFeed.state (NotificationsFeed.step j e))
  = State.refreshing (NotificationsFeed.state j).
Proof.
  intros Hp Hdb Hpk Hpool e t.
  assert (Ht : t = [ SetPageSize (State.pageSize (NotificationsFeed.state j)
                                  + NotificationsFeed.initialPageSize) ]
                   ++ Pool UnsubscribeAll
                   :: trace (NotificationsFeed.subscribeNotes
                               {| NotificationsFeed.database := NotificationsFeed.ctxDatabase j;
                                  NotificationsFeed.publicKey := NotificationsFeed.ctxPublicKey j;
                                  NotificationsFeed.relayPool := NotificationsFeed.ctxRelayPool j;
                                  NotificationsFeed.pageSize :=
                                    State.pageSize (NotificationsFeed.state j)
                                    + NotificationsFeed.initialPageSize |})).
  { subst t e. rewrite NotificationFacts.mentions_react_scrolled.
    rewrite NotificationFacts.pageSizeEffect_trace.
    rewrite NotificationFacts.mentions_loadNotes_rejected. simpl.
    rewrite Hpool. unfold NotificationsFeed.initialPageSize.
    replace (10 <? State.pageSize (NotificationsFeed.state j) + 10) with true
      by (symmetry; apply Z.ltb_lt; lia).
    now rewrite app_nil_r. }
  assert (Hstate : NotificationsFeed.state (NotificationsFeed.step j e)
                   = commit (NotificationsFeed.state j) t) by reflexivity.
  rewrite Hstate, Ht, NotificationFacts.mentions_subscribeNotes_trace.
  simpl. rewrite Hdb, Hpk, Hpool. simpl.
  destruct (NotificationsFeed.state j). repeat split.
Qed.

Lemma growth_with_rejected_query_witness :
  map (@addressed _)
    (poolCalls
       (NotificationsFeed.react Sample.notificationsFeed
          (NotificationsFeed.Scrolled true Rejected)))
  = [None; Some ["mentions-user"]].
Proof.
  pose proof (growth_with_rejected_query Sample.notificationsFeed
                eq_refl eq_refl eq_refl eq_refl) as H.
  cbv zeta in H. apply H.
Defined.
